(** * radare2-mcp: the MCP protocol engine of [r2_mcp.c]

    A shallow embedding of the connector's protocol engine: the read buffer
    that frames newline-delimited messages, the JSON-RPC envelopes built
    with radare2's [pj] printer, the capability checks, the tool catalog
    and the request dispatcher with its tool handlers.

    Conventions of the model.
    - C strings are [string]s (sequences of 8-bit characters); [NULL] is
      [None] wherever the source lets a pointer be [NULL].
    - C [int] is a [Z] kept in range by [to_int32] where the C truncates.
    - The globals [r_core], [file_opened], [current_file], [server_state]
      and the bytes written to the standard output are the fields of
      [World]; functions that touch them are state transformers.
    - Diagnostics printed on the standard error stream are not modelled.
    - Allocation ([malloc], [realloc], [strdup], [open_memstream]) is taken
      to succeed, and [size_t] arithmetic to be exact: no count of bytes
      held in memory reaches the modulus of [size_t].
    - Of [direct_mode_loop], the branch that handles the bytes returned by
      [read] is modelled ([Framer.feed]); polling, signals and the end of
      the streams are not.
    - [process_mcp_message] releases the tree of a request once the request
      is answered.  The two pointers that [handle_initialize] keeps into
      that tree dangle from then on: what a later read through one of them
      finds is a parameter of the model ([r_json_get_freed]), and a later
      [r_json_free] of one of them is recorded in the field [undefined] of
      [World], after which the C program has no defined behaviour. *)

From Stdlib Require Import Strings.String Strings.Ascii Strings.Byte.
From Stdlib Require Import Numbers.DecimalString.
From Stdlib Require Import List ZArith NArith Lia Bool Arith.
From Equations Require Import Equations.
Import ListNotations.

Set Warnings "-register-all".

(** ** The read buffer (the framer) *)

Module Framer.

Definition BUFFER_SIZE : N := 65536.

(** [ReadBuffer]: [data] holds the [size] bytes in use, so [size] is
    [length data]; the storage behind them is [capacity] bytes long. *)
Record ReadBuffer := mkReadBuffer {
  data : list byte;
  capacity : N
}.

Definition size (buf : ReadBuffer) : N := N.of_nat (length (data buf)).

Definition read_buffer_new : ReadBuffer :=
  {| data := []; capacity := BUFFER_SIZE |}.

(** [read_buffer_append]: the storage is doubled once when the new bytes
    do not fit, then [memcpy] writes [len] bytes at offset [size].  The
    result is [None] where that [memcpy] would write past the end of the
    storage, which C leaves undefined. *)
Definition read_buffer_append (buf : ReadBuffer) (bytes : list byte)
  : option ReadBuffer :=
  let len := N.of_nat (length bytes) in
  let new_capacity :=
    if (capacity buf <? size buf + len)%N then (capacity buf * 2)%N
    else capacity buf in
  if (size buf + len <=? new_capacity)%N
  then Some {| data := data buf ++ bytes; capacity := new_capacity |}
  else None.

Definition newline : byte := x0a.

(** [memchr s c n] over the [n] bytes in use: the offset of the first [c]. *)
Fixpoint memchr (s : list byte) (c : byte) : option nat :=
  match s with
  | [] => None
  | b :: s' =>
      if Byte.eqb b c then Some 0
      else match memchr s' c with
           | Some i => Some (S i)
           | None => None
           end
  end.

(** [read_buffer_get_message]: the message is the [msg_len] bytes before
    the first newline; the [remaining] bytes after the newline are moved
    to the start of the storage. *)
Definition read_buffer_get_message (buf : ReadBuffer)
  : option (list byte * ReadBuffer) :=
  match memchr (data buf) newline with
  | None => None
  | Some msg_len =>
      let msg := firstn msg_len (data buf) in
      let remaining := length (data buf) - (msg_len + 1) in
      Some (msg, {| data := firstn remaining (skipn (msg_len + 1) (data buf));
                    capacity := capacity buf |})
  end.

Lemma memchr_split s c i :
  memchr s c = Some i ->
  s = firstn i s ++ c :: skipn (i + 1) s /\ memchr (firstn i s) c = None.
Proof.
  revert i; induction s as [|b s IH]; simpl; intros i H; [discriminate|].
  destruct (Byte.eqb b c) eqn:E.
  - inversion H; subst; simpl. apply Byte.byte_dec_bl in E. subst; auto.
  - destruct (memchr s c) as [j|] eqn:M; [|discriminate].
    inversion H; subst; simpl. destruct (IH j eq_refl) as [H1 H2].
    rewrite E, H2. split; [f_equal; exact H1 | reflexivity].
Qed.

Lemma get_message_shrinks buf msg buf' :
  read_buffer_get_message buf = Some (msg, buf') ->
  length (data buf') < length (data buf).
Proof.
  unfold read_buffer_get_message.
  destruct (memchr (data buf) newline) as [i|] eqn:M; [|discriminate].
  intros H; inversion H; subst; simpl.
  rewrite length_firstn, length_skipn.
  destruct (memchr_split _ _ _ M) as [Hs _].
  assert (L : length (data buf) = length (firstn i (data buf) ++ newline :: skipn (i + 1) (data buf)))
    by (rewrite <- Hs; reflexivity).
  rewrite length_app in L; simpl in L. lia.
Qed.

Definition inspect {A} (a : A) : {b : A | a = b} := exist _ a eq_refl.

(** The inner loop of [direct_mode_loop]:
    [while ((msg = read_buffer_get_message(buffer)) != NULL)], returning
    the messages handed to [process_mcp_message], in order. *)
Equations? extract_messages (buf : ReadBuffer)
  : list (list byte) * ReadBuffer by wf (length (data buf)) lt :=
  extract_messages buf with inspect (read_buffer_get_message buf) => {
    | exist _ None _ => ([], buf)
    | exist _ (Some (msg, buf')) e =>
        let r := extract_messages buf' in (msg :: fst r, snd r) }.
Proof. eapply get_message_shrinks; eauto. Qed.

(** The [bytes_read > 0] branch of [direct_mode_loop], once for each chunk
    that [read] returns: append the chunk, then extract every complete
    message.  The result lists the extracted messages in order. *)
Fixpoint feed (buf : ReadBuffer) (chunks : list (list byte))
  : option (list (list byte) * ReadBuffer) :=
  match chunks with
  | [] => Some ([], buf)
  | chunk :: rest =>
      match read_buffer_append buf chunk with
      | None => None
      | Some buf1 =>
          let r := extract_messages buf1 in
          match feed (snd r) rest with
          | None => None
          | Some (msgs, buf2) => Some (fst r ++ msgs, buf2)
          end
      end
  end.

(** The specification's reading of a byte sequence: its newline-terminated
    messages in order, and the unterminated bytes after the last newline. *)
Fixpoint split_lines (bs : list byte) : list (list byte) * list byte :=
  match bs with
  | [] => ([], [])
  | b :: bs' =>
      let (msgs, rest) := split_lines bs' in
      if Byte.eqb b newline then ([] :: msgs, rest)
      else match msgs with
           | [] => ([], b :: rest)
           | m :: msgs' => ((b :: m) :: msgs', rest)
           end
  end.

(** The buffer never overflows while [size <= capacity] and the storage is
    at least as large as the chunks appended to it. *)
Definition well_sized (buf : ReadBuffer) : Prop :=
  (size buf <= capacity buf)%N /\ (BUFFER_SIZE <= capacity buf)%N.

Definition fits (chunk : list byte) : Prop :=
  (N.of_nat (length chunk) <= BUFFER_SIZE)%N.

End Framer.

(** ** C library functions used by the connector *)

Module Libc.

Open Scope string_scope.

(** The characters that Rocq string literals cannot hold directly. *)
Definition dquote : string := String "034"%char EmptyString.
Definition LF : string := String "010"%char EmptyString.

(** [js] writes a C literal that contains double quotes: every apostrophe
    of its argument stands for a double quote.  None of the literals of
    [r2_mcp.c] written this way contains an apostrophe of its own. *)
Fixpoint js (s : string) : string :=
  match s with
  | EmptyString => EmptyString
  | String c s' =>
      String (if Ascii.eqb c "'"%char then "034"%char else c) (js s')
  end.

(** [(int) x] for an integer [x] outside the range of [int]. *)
Definition to_int32 (z : Z) : Z := (z + 2 ^ 31) mod 2 ^ 32 - 2 ^ 31.

(** [(long long) x] for a 64-bit unsigned [x]. *)
Definition to_int64 (z : Z) : Z := (z + 2 ^ 63) mod 2 ^ 64 - 2 ^ 63.

Definition LONG_MAX : Z := 2 ^ 63 - 1.
Definition LONG_MIN : Z := - 2 ^ 63.

(** [printf]'s [%d] and [%lld]. *)
Definition decimal (z : Z) : string := NilZero.string_of_int (Z.to_int z).

(** [snprintf(buf, n, ...)] and [strncpy(buf, s, n - 1)] into a zeroed
    [char buf[n]]: the text is cut to the [n - 1] characters that fit. *)
Definition fit (n : nat) (s : string) : string := substring 0 (n - 1) s.

(** [strncmp(s, p, strlen(p)) == 0]. *)
Definition starts_with (p s : string) : bool := prefix p s.

Definition isspace (c : ascii) : bool :=
  let n := nat_of_ascii c in
  (n =? 32)%nat || ((9 <=? n)%nat && (n <=? 13)%nat).

Definition digit (c : ascii) : option Z :=
  let n := Z.of_nat (nat_of_ascii c) in
  if (48 <=? n)%Z && (n <=? 57)%Z then Some (n - 48)%Z else None.

Fixpoint skip_spaces (s : string) : string :=
  match s with
  | String c s' => if isspace c then skip_spaces s' else s
  | EmptyString => s
  end.

Fixpoint digits (acc : Z) (s : string) : Z :=
  match s with
  | String c s' =>
      match digit c with
      | Some d => digits (acc * 10 + d) s'
      | None => acc
      end
  | EmptyString => acc
  end.

(** [strtol(s, NULL, 10)]: leading white space, an optional sign, decimal
    digits; a value outside [long] is clamped to [LONG_MIN] or [LONG_MAX]. *)
Definition strtol (s : string) : Z :=
  let v :=
    match skip_spaces s with
    | EmptyString => 0%Z
    | String c s' =>
        if Ascii.eqb c "-"%char then (- digits 0 s')%Z
        else if Ascii.eqb c "+"%char then digits 0 s'
        else digits 0 (String c s')
    end in
  Z.max LONG_MIN (Z.min LONG_MAX v).

(** [atoi], as the C library computes it: [(int) strtol(s, NULL, 10)]. *)
Definition atoi (s : string) : Z := to_int32 (strtol s).

End Libc.

(** ** radare2's JSON values ([r_json.h]) *)

Module Json.

(** Modelled from the spec: radare2's JSON reader ([r_json.h]) is not part
    of the repository; a decoded request is a tree of typed nodes.
    [R_JSON_INTEGER] carries the 64-bit [num.u_value], [R_JSON_DOUBLE] the
    text of the number; the children of an object are kept in document
    order with their keys. *)
Inductive RJson : Type :=
| R_JSON_NULL
| R_JSON_BOOLEAN (u_value : bool)
| R_JSON_INTEGER (u_value : Z)
| R_JSON_DOUBLE (lexeme : string)
| R_JSON_STRING (str_value : string)
| R_JSON_ARRAY (children : list RJson)
| R_JSON_OBJECT (children : list (string * RJson)).

Fixpoint find_child (children : list (string * RJson)) (key : string)
  : option RJson :=
  match children with
  | [] => None
  | (k, v) :: rest => if String.eqb k key then Some v else find_child rest key
  end.

(** Modelled from the spec: [r_json_get(json, key)] of radare2, the first
    child of [json] stored under [key]; [NULL] for a [NULL] node, and for
    a node without keyed children. *)
Definition r_json_get (json : option RJson) (key : string) : option RJson :=
  match json with
  | Some (R_JSON_OBJECT children) => find_child children key
  | _ => None
  end.

(** [r_json_get_str] of [r2_mcp.c]. *)
Definition r_json_get_str (json : option RJson) (key : string)
  : option string :=
  match json with
  | None => None
  | Some _ =>
      match r_json_get json key with
      | Some (R_JSON_STRING str_value) => Some str_value
      | _ => None
      end
  end.

End Json.

(** ** The parts of radare2 that the connector links against

    Their code is outside this repository.  The analysis core is seen
    through the calls made to it: what a call returns may depend on every
    call made before it. *)

(** The calls that [r2_mcp.c] makes on [r_core]. *)
Inductive R2Call : Type :=
| ConfigSetI (key : string) (value : Z)
| Cmd0 (cmd : string)
| CmdStr (cmd : string)
| FileOpen (path : string)
| BinLoad (path : string).

(** The characters that [r_str_escape_utf8_for_json] copies unchanged:
    printable ASCII other than the double quote and the backslash. *)
Definition plain_char (c : ascii) : bool :=
  let n := nat_of_ascii c in
  (32 <=? n)%nat && (n <=? 126)%nat && negb (n =? 34)%nat && negb (n =? 92)%nat.

Fixpoint plain (s : string) : bool :=
  match s with
  | EmptyString => true
  | String c s' => plain_char c && plain s'
  end.

(** What the model takes from radare2 as parameters: the string escaping
    of its JSON printer, of which only [escape_plain] is assumed, and the
    answers of the analysis core. *)
Class Radare2 : Type := {
  (** the JSON string escaping behind [pj_s] and [pj_k] *)
  r_str_escape_utf8_for_json : string -> string;
  escape_plain : forall s, plain s = true -> r_str_escape_utf8_for_json s = s;
  (** whether [r_core_new] returns a core *)
  r_core_new_ok : bool;
  (** the text returned by [r_core_cmd_str] after the calls [history] *)
  r_core_cmd_str_result : list R2Call -> string -> option string;
  (** whether [r_core_file_open] returns a descriptor *)
  r_core_file_open_ok : list R2Call -> string -> bool;
  (** what [r_json_get] finds under a key when it is handed a pointer into
      a tree that [r_json_free] has released; the node is what the pointer
      pointed to before *)
  r_json_get_freed : Json.RJson -> string -> option Json.RJson
}.

(** ** radare2's JSON printer ([pj.c]), as far as the connector drives it *)

Module Pj.
Import Libc.
Open Scope string_scope.

Section Printer.
Context `{Radare2}.

(** Modelled from the spec: radare2's printer ([pj.c]) is not part of the
    repository; [pj_new] to [pj_drain] below print compact JSON, members
    and elements in call order, as the envelopes of the specification are
    written.  [PJ] holds the text printed so far, the two flags that
    decide where commas go, and the closing brackets of the containers
    still open. *)
Record PJ := mkPJ {
  sb : string;
  is_first : bool;
  is_key : bool;
  braces : list string
}.

Definition pj_new : PJ :=
  {| sb := EmptyString; is_first := true; is_key := false; braces := [] |}.

Definition pj_raw (j : PJ) (msg : string) : PJ :=
  {| sb := sb j ++ msg; is_first := is_first j; is_key := is_key j;
     braces := braces j |}.

Definition pj_comma (j : PJ) : PJ :=
  if is_key j
  then {| sb := sb j; is_first := is_first j; is_key := false;
          braces := braces j |}
  else
    let j1 := if is_first j then j else pj_raw j "," in
    {| sb := sb j1; is_first := false; is_key := is_key j1;
       braces := braces j1 |}.

Definition pj_begin (j : PJ) (open close : string) : PJ :=
  {| sb := sb j ++ open; is_first := true; is_key := is_key j;
     braces := close :: braces j |}.

Definition pj_o (j : PJ) : PJ := pj_begin (pj_comma j) "{" "}".
Definition pj_a (j : PJ) : PJ := pj_begin (pj_comma j) "[" "]".

Definition pj_end (j : PJ) : PJ :=
  match braces j with
  | [] => j
  | [close] =>
      {| sb := sb j ++ close; is_first := is_first j; is_key := is_key j;
         braces := [] |}
  | close :: outer =>
      {| sb := sb j ++ close; is_first := false; is_key := is_key j;
         braces := outer |}
  end.

Definition pj_s (j : PJ) (k : string) : PJ :=
  pj_raw (pj_raw (pj_raw (pj_comma j) dquote)
                 (r_str_escape_utf8_for_json k)) dquote.

Definition pj_k (j : PJ) (k : string) : PJ :=
  let j1 := {| sb := sb j; is_first := is_first j; is_key := false;
               braces := braces j |} in
  let j2 := pj_raw (pj_s j1 k) ":" in
  {| sb := sb j2; is_first := false; is_key := true; braces := braces j2 |}.

(** [pj_ks] leaves the printer untouched when the value is [NULL]. *)
Definition pj_ks (j : PJ) (k : string) (v : option string) : PJ :=
  match v with
  | Some v => pj_s (pj_k j k) v
  | None => j
  end.

Definition pj_i (j : PJ) (d : Z) : PJ := pj_raw (pj_comma j) (decimal d).
Definition pj_ki (j : PJ) (k : string) (d : Z) : PJ := pj_i (pj_k j k) d.

Definition pj_b (j : PJ) (v : bool) : PJ :=
  pj_raw (pj_comma j) (if v then "true" else "false").
Definition pj_kb (j : PJ) (k : string) (v : bool) : PJ := pj_b (pj_k j k) v.

Definition pj_null (j : PJ) : PJ := pj_raw j "null".

Definition pj_drain (j : PJ) : string := sb j.

End Printer.
End Pj.

(** ** The connector: state, capability checks, envelopes, handlers *)

Module Mcp.
Import Libc Json Pj.
Open Scope string_scope.

Definition LATEST_PROTOCOL_VERSION : string := "2024-11-05".

Record ServerInfo := mkServerInfo {
  name : string;
  version : string
}.

Record ServerCapabilities := mkServerCapabilities {
  logging : bool;
  tools : bool
}.

(** [client_capabilities] and [client_info] are pointers into the tree of
    the [initialize] request that carried them, shown as the nodes they
    pointed to when they were stored.  That tree is released at the end of
    [process_mcp_message], before the next message is read, and the two
    pointers are used only at the start of a dispatch
    ([check_client_capability], the [r_json_free] calls of
    [handle_initialize]), never after the store in the same dispatch: where
    one of them is used and is not [NULL], it dangles. *)
Record ServerState := mkServerState {
  info : ServerInfo;
  capabilities : ServerCapabilities;
  instructions : option string;
  initialized : bool;
  client_capabilities : option RJson;
  client_info : option RJson
}.

(** The global variables of [r2_mcp.c], and the standard output.  [r_core]
    is [None] for the [NULL] pointer; a core is the list of the calls made
    to it so far.  [undefined] is not a variable of the program: it is set
    once the program has released memory that was already released, and
    stays set. *)
Record World := mkWorld {
  r_core : option (list R2Call);
  file_opened : bool;
  current_file : string;
  server_state : ServerState;
  stdout : string;
  undefined : bool
}.

Definition initial_server_state : ServerState :=
  {| info := {| name := "Radare2 MCP Connector"; version := "1.0.0" |};
     capabilities := {| logging := true; tools := true |};
     instructions := Some "Use this server to analyze binaries with radare2";
     initialized := false;
     client_capabilities := None;
     client_info := None |}.

Definition initial_world : World :=
  {| r_core := None; file_opened := false; current_file := EmptyString;
     server_state := initial_server_state; stdout := EmptyString;
     undefined := false |}.

(** *** State transformers *)

Definition M (A : Type) : Type := World -> A * World.

Definition ret {A} (a : A) : M A := fun w => (a, w).

Definition bind {A B} (c : M A) (k : A -> M B) : M B :=
  fun w => let (a, w') := c w in k a w'.

Notation "x <- c ;; k" := (bind c (fun x => k))
  (at level 61, c at next level, right associativity).
Notation "c ;; k" := (bind c (fun _ => k))
  (at level 61, right associativity).

Definition gets {A} (f : World -> A) : M A := fun w => (f w, w).
Definition modify (f : World -> World) : M unit := fun w => (tt, f w).

Definition set_r_core (c : option (list R2Call)) (w : World) : World :=
  {| r_core := c; file_opened := file_opened w;
     current_file := current_file w; server_state := server_state w;
     stdout := stdout w; undefined := undefined w |}.

Definition set_file_opened (b : bool) (w : World) : World :=
  {| r_core := r_core w; file_opened := b;
     current_file := current_file w; server_state := server_state w;
     stdout := stdout w; undefined := undefined w |}.

Definition set_current_file (s : string) (w : World) : World :=
  {| r_core := r_core w; file_opened := file_opened w;
     current_file := s; server_state := server_state w;
     stdout := stdout w; undefined := undefined w |}.

Definition set_server_state (s : ServerState) (w : World) : World :=
  {| r_core := r_core w; file_opened := file_opened w;
     current_file := current_file w; server_state := s;
     stdout := stdout w; undefined := undefined w |}.

(** [write(STDOUT_FILENO, s, strlen(s))] *)
Definition write_stdout (s : string) : M unit :=
  modify (fun w =>
    {| r_core := r_core w; file_opened := file_opened w;
       current_file := current_file w; server_state := server_state w;
       stdout := stdout w ++ s; undefined := undefined w |}).

Definition set_undefined (b : bool) (w : World) : World :=
  {| r_core := r_core w; file_opened := file_opened w;
     current_file := current_file w; server_state := server_state w;
     stdout := stdout w; undefined := b |}.

Section Connector.
Context `{Radare2}.

(** *** Calls into the analysis core *)

Definition core_call (call : R2Call) : M unit :=
  modify (fun w =>
    match r_core w with
    | Some history => set_r_core (Some (history ++ [call])%list) w
    | None => w
    end).

Definition r_core_cmd0 (cmd : string) : M unit := core_call (Cmd0 cmd).

Definition r_core_bin_load (path : string) : M unit :=
  core_call (BinLoad path).

Definition r_core_cmd_str (cmd : string) : M (option string) :=
  fun w =>
    match r_core w with
    | Some history =>
        (r_core_cmd_str_result history cmd,
         set_r_core (Some (history ++ [CmdStr cmd])%list) w)
    | None => (None, w)
    end.

Definition r_core_file_open (path : string) : M bool :=
  fun w =>
    match r_core w with
    | Some history =>
        (r_core_file_open_ok history path,
         set_r_core (Some (history ++ [FileOpen path])%list) w)
    | None => (false, w)
    end.

Definition init_r2 : M bool :=
  if r_core_new_ok
  then modify (set_r_core (Some [ConfigSetI "scr.color" 0])) ;; ret true
  else modify (set_r_core None) ;; ret false.

Definition r2_open_file (filepath : string) : M bool :=
  have_core <- gets r_core ;;
  core_ready <- match have_core with
                | Some _ => ret true
                | None => init_r2
                end ;;
  if negb core_ready then ret false else
  opened <- gets file_opened ;;
  (if opened
   then r_core_cmd0 "o-*" ;;
        modify (set_file_opened false) ;;
        modify (set_current_file EmptyString)
   else ret tt) ;;
  r_core_cmd0 "e bin.relocs.apply=true" ;;
  r_core_cmd0 "e bin.cache=true" ;;
  let cmd := fit 1024 ("o " ++ filepath) in
  result <- r_core_cmd_str cmd ;;
  let success :=
    match result with
    | Some text => (0 <? String.length text)%nat
    | None => false
    end in
  loaded <- (if success then ret true
             else fd <- r_core_file_open filepath ;;
                  if fd then r_core_bin_load filepath ;; ret true
                  else ret false) ;;
  if negb loaded then ret false else
  r_core_cmd0 "ob" ;;
  modify (set_current_file (fit 1024 filepath)) ;;
  modify (set_file_opened true) ;;
  ret true.

Definition r2_cmd (cmd : string) : M (option string) :=
  have_core <- gets r_core ;;
  opened <- gets file_opened ;;
  match have_core with
  | Some _ =>
      if opened then r_core_cmd_str cmd
      else ret (Some "Error: No file is open")
  | None => ret (Some "Error: No file is open")
  end.

Definition r2_analyze (level : string) : M bool :=
  have_core <- gets r_core ;;
  opened <- gets file_opened ;;
  match have_core with
  | Some _ =>
      if opened then r_core_cmd0 (fit 32 level) ;; ret true
      else ret false
  | None => ret false
  end.

(** *** Capability checks *)

(** A [client_capabilities] that is not [NULL] here was stored while an
    earlier request was handled, and the tree of that request is released:
    [r_json_get] reads released memory. *)
Definition check_client_capability (st : ServerState) (capability : string)
  : bool :=
  match client_capabilities st with
  | None => false
  | Some caps =>
      match r_json_get_freed caps capability with
      | Some _ => true
      | None => false
      end
  end.

Definition check_server_capability (st : ServerState) (capability : string)
  : bool :=
  if capability =? "logging" then logging (capabilities st)
  else if capability =? "tools" then tools (capabilities st)
  else false.

(** The two checks return [None] where the C returns [true], and the text
    stored through [error] where it returns [false]. *)
Definition assert_capability_for_method (st : ServerState) (method : string)
  : option string :=
  if method =? "sampling/createMessage" then
    if check_client_capability st "sampling" then None
    else Some "Client does not support sampling"
  else if method =? "roots/list" then
    if check_client_capability st "roots" then None
    else Some "Client does not support listing roots"
  else None.

Definition assert_request_handler_capability (st : ServerState)
  (method : string) : option string :=
  if method =? "sampling/createMessage" then
    if check_server_capability st "sampling" then None
    else Some "Server does not support sampling"
  else if method =? "logging/setLevel" then
    if check_server_capability st "logging" then None
    else Some "Server does not support logging"
  else if starts_with "prompts/" method then
    if check_server_capability st "prompts" then None
    else Some "Server does not support prompts"
  else if starts_with "tools/" method then
    if check_server_capability st "tools" then None
    else Some "Server does not support tools"
  else None.

(** *** Envelopes *)

Definition create_error_response (code : Z) (message : string)
  (id uri : option string) : string :=
  let pj := pj_o pj_new in
  let pj := pj_ks pj "jsonrpc" (Some "2.0") in
  let pj := match id with Some _ => pj_ks pj "id" id | None => pj end in
  let pj := pj_k pj "error" in
  let pj := pj_o pj in
  let pj := pj_ki pj "code" code in
  let pj := pj_ks pj "message" (Some message) in
  let pj := match uri with
            | Some _ =>
                pj_end (pj_ks (pj_o (pj_k pj "data")) "uri" uri)
            | None => pj
            end in
  let pj := pj_end pj in
  let pj := pj_end pj in
  pj_drain pj.

Definition create_success_response (result id : option string) : string :=
  let pj := pj_o pj_new in
  let pj := pj_ks pj "jsonrpc" (Some "2.0") in
  let pj := match id with Some _ => pj_ks pj "id" id | None => pj end in
  let pj := pj_k pj "result" in
  let pj := match result with
            | Some text => pj_raw pj text
            | None => pj_null pj
            end in
  let pj := pj_end pj in
  pj_drain pj.

Definition create_tool_error_response (error_message : string) : string :=
  let pj := pj_o pj_new in
  let pj := pj_k pj "content" in
  let pj := pj_a pj in
  let pj := pj_o pj in
  let pj := pj_ks pj "type" (Some "text") in
  let pj := pj_ks pj "text" (Some error_message) in
  let pj := pj_end pj in
  let pj := pj_end pj in
  let pj := pj_kb pj "isError" true in
  let pj := pj_end pj in
  pj_drain pj.

Definition create_tool_text_response (text : option string) : string :=
  let pj := pj_o pj_new in
  let pj := pj_k pj "content" in
  let pj := pj_a pj in
  let pj := pj_o pj in
  let pj := pj_ks pj "type" (Some "text") in
  let pj := pj_ks pj "text" text in
  let pj := pj_end pj in
  let pj := pj_end pj in
  let pj := pj_end pj in
  pj_drain pj.

Definition get_capabilities : string :=
  let pj := pj_o pj_new in
  let pj := pj_k pj "tools" in
  let pj := pj_o pj in
  let pj := pj_end pj in
  let pj := pj_end pj in
  pj_drain pj.

(** *** The handlers *)

Definition set_client (caps client : option RJson) (st : ServerState)
  : ServerState :=
  {| info := info st; capabilities := capabilities st;
     instructions := instructions st; initialized := initialized st;
     client_capabilities := caps; client_info := client |}.

Definition set_initialized (b : bool) (st : ServerState) : ServerState :=
  {| info := info st; capabilities := capabilities st;
     instructions := instructions st; initialized := b;
     client_capabilities := client_capabilities st;
     client_info := client_info st |}.

(** [if (pointer) r_json_free(pointer)] on one of the two pointers kept
    from an earlier [initialize]: the node it points to went with the tree
    of that request, so the call releases it a second time. *)
Definition r_json_free_kept (pointer : option RJson) : M unit :=
  match pointer with
  | Some _ => modify (set_undefined true)
  | None => ret tt
  end.

(** [handle_initialize] releases what the two client pointers point to,
    then points them to the [capabilities] and [clientInfo] children of
    [params], which stay part of the request's tree. *)
Definition handle_initialize (params : option RJson) : M string :=
  old <- gets server_state ;;
  r_json_free_kept (client_capabilities old) ;;
  r_json_free_kept (client_info old) ;;
  modify (fun w =>
    set_server_state
      (set_client (r_json_get params "capabilities")
                  (r_json_get params "clientInfo") (server_state w)) w) ;;
  st <- gets server_state ;;
  let pj := pj_o pj_new in
  let pj := pj_ks pj "protocolVersion" (Some LATEST_PROTOCOL_VERSION) in
  let pj := pj_k pj "serverInfo" in
  let pj := pj_o pj in
  let pj := pj_ks pj "name" (Some (name (info st))) in
  let pj := pj_ks pj "version" (Some (version (info st))) in
  let pj := pj_end pj in
  let pj := pj_k pj "capabilities" in
  let pj := pj_raw pj get_capabilities in
  let pj := match instructions st with
            | Some _ => pj_ks pj "instructions" (instructions st)
            | None => pj
            end in
  let pj := pj_end pj in
  modify (fun w =>
    set_server_state (set_initialized true (server_state w)) w) ;;
  ret (pj_drain pj).

(** The array [tools] of [handle_list_tools], the catalog: name,
    description, input schema. *)
Definition tool_table : list (string * string * string) :=
  [ ("openFile",
     "Open a file for analysis",
     js "{'type':'object','properties':{'filePath':{'type':'string','description':'Path to the file to open'}},'required':['filePath']}");
    ("closeFile",
     "Close the currently open file",
     js "{'type':'object','properties':{}}");
    ("runCommand",
     "Run a radare2 command and get the output",
     js "{'type':'object','properties':{'command':{'type':'string','description':'Command to execute'}},'required':['command']}");
    ("analyze",
     "Run analysis on the current file",
     js "{'type':'object','properties':{'level':{'type':'string','description':'Analysis level (a, aa, aaa, aaaa)'}},'required':[]}");
    ("disassemble",
     "Disassemble instructions at a given address",
     js "{'type':'object','properties':{'address':{'type':'string','description':'Address to start disassembly'},'numInstructions':{'type':'integer','description':'Number of instructions to disassemble'}},'required':['address']}") ].

(** One [fprintf] of the loop body: [tools[i]] printed as an object. *)
Definition tool_entry (tool : string * string * string) : string :=
  let '(tool_name, description, schema) := tool in
  js "{'name':'" ++ tool_name ++ js "','description':'" ++ description
  ++ js "','inputSchema':" ++ schema ++ "}".

(** [for (i = start_index; i < end_index; i++)], with [count] iterations
    left to run from [i]. *)
Fixpoint tools_loop (count : nat) (i start_index : Z) : string :=
  match count with
  | O => EmptyString
  | S count' =>
      (if (i >? start_index)%Z then "," else EmptyString)
      ++ tool_entry (nth (Z.to_nat i) tool_table
                         (EmptyString, EmptyString, EmptyString))
      ++ tools_loop count' (i + 1)%Z start_index
  end.

(** [handle_list_tools]; the sum [start_index + page_size] wraps around
    when it leaves the range of [int]. *)
Definition handle_list_tools (params : option RJson) : string :=
  let cursor := r_json_get_str params "cursor" in
  let page_size := 10%Z in
  let start_index :=
    match cursor with
    | Some text => if (atoi text <? 0)%Z then 0%Z else atoi text
    | None => 0%Z
    end in
  let total_tools := Z.of_nat (List.length tool_table) in
  let end_index := to_int32 (start_index + page_size) in
  let end_index :=
    if (end_index >? total_tools)%Z then total_tools else end_index in
  js "{'tools':["
  ++ tools_loop (Z.to_nat (end_index - start_index)) start_index start_index
  ++ "]"
  ++ (if (end_index <? total_tools)%Z
      then js ",'nextCursor':'" ++ fit 16 (decimal end_index) ++ dquote
      else EmptyString)
  ++ "}".

(** [format_string] prints into a buffer of 4096 characters. *)
Definition format_string (text : string) : string := fit 4096 text.

Definition handle_call_tool (params : option RJson) : M string :=
  match r_json_get_str params "name" with
  | None =>
      ret (create_error_response (-32602)
             "Missing required parameter: name" None None)
  | Some tool_name =>
  let tool_args := r_json_get params "arguments" in
  if tool_name =? "openFile" then
    match r_json_get_str tool_args "filePath" with
    | None =>
        ret (create_error_response (-32602)
               "Missing required parameter: filePath" None None)
    | Some filepath =>
        success <- r2_open_file filepath ;;
        ret (create_tool_text_response
               (Some (if success then "File opened successfully."
                      else "Failed to open file.")))
    end
  else if tool_name =? "closeFile" then
    opened <- gets file_opened ;;
    if negb opened
    then ret (create_tool_text_response (Some "No file was open."))
    else
      have_core <- gets r_core ;;
      match have_core with
      | Some _ =>
          r_core_cmd0 "o-*" ;;
          modify (set_file_opened false) ;;
          modify (set_current_file EmptyString)
      | None => ret tt
      end ;;
      ret (create_tool_text_response (Some "File closed successfully."))
  else
  opened <- gets file_opened ;;
  if negb opened && ((tool_name =? "runCommand")
                     || (tool_name =? "analyze")
                     || (tool_name =? "disassemble"))
  then ret (create_tool_error_response
              "No file is currently open. Please open a file first.")
  else if tool_name =? "runCommand" then
    match r_json_get_str tool_args "command" with
    | None =>
        ret (create_error_response (-32602)
               "Missing required parameter: command" None None)
    | Some command =>
        result <- r2_cmd command ;;
        ret (create_tool_text_response result)
    end
  else if tool_name =? "analyze" then
    let level :=
      match r_json_get_str tool_args "level" with
      | Some level => level
      | None => "aaa"
      end in
    r2_analyze level ;;
    result <- r2_cmd "afl" ;;
    let text :=
      format_string
        ("Analysis completed with level " ++ level ++ "." ++ LF ++ LF
         ++ match result with Some listing => listing | None => "(null)" end)
    in
    ret (create_tool_text_response (Some text))
  else if tool_name =? "disassemble" then
    match r_json_get_str tool_args "address" with
    | None =>
        ret (create_error_response (-32602)
               "Missing required parameter: address" None None)
    | Some address =>
        let num_instr_json := r_json_get tool_args "numInstructions" in
        let num_instructions :=
          match num_instr_json with
          | Some (R_JSON_INTEGER u_value) => to_int32 u_value
          | _ => 10%Z
          end in
        let cmd :=
          fit 128 ("pd " ++ decimal num_instructions ++ " @ " ++ address) in
        disasm <- r2_cmd cmd ;;
        ret (create_tool_text_response disasm)
    end
  else
    ret (create_error_response (-32602)
           (format_string ("Unknown tool: " ++ tool_name)) None None)
  end.

Definition handle_mcp_request (method : string) (params : option RJson)
  (id : option string) : M string :=
  st <- gets server_state ;;
  match assert_capability_for_method st method with
  | Some error => ret (create_error_response (-32601) error id None)
  | None =>
  match assert_request_handler_capability st method with
  | Some error => ret (create_error_response (-32601) error id None)
  | None =>
  if method =? "initialize" then
    result <- handle_initialize params ;;
    ret (create_success_response (Some result) id)
  else if method =? "ping" then
    ret (create_success_response (Some "{}") id)
  else if method =? "resources/templates/list" then
    ret (create_error_response (-32601)
           "Method not implemented: templates are not supported" id None)
  else if method =? "resources/list" then
    ret (create_error_response (-32601)
           "Method not implemented: resources are not supported" id None)
  else if (method =? "resources/read") || (method =? "resource/read") then
    ret (create_error_response (-32601)
           "Method not implemented: resources are not supported" id None)
  else if (method =? "resources/subscribe")
          || (method =? "resource/subscribe") then
    ret (create_error_response (-32601)
           "Method not implemented: subscriptions are not supported" id None)
  else if (method =? "tools/list") || (method =? "tool/list") then
    ret (create_success_response (Some (handle_list_tools params)) id)
  else if (method =? "tools/call") || (method =? "tool/call") then
    result <- handle_call_tool params ;;
    ret (create_success_response (Some result) id)
  else
    ret (create_error_response (-32601) "Unknown method" id None)
  end
  end.

(** [process_mcp_message], from the result of [r_json_parse] on: [request]
    is [None] when the line is not JSON.  The [r_json_free(request)] that
    ends it changes no variable of the program; it is the reason why the
    client pointers dangle when they are used next (see [ServerState]). *)
Definition process_mcp_message (request : option RJson) : M unit :=
  match request with
  | None => ret tt
  | Some _ =>
  let method := r_json_get_str request "method" in
  let params := r_json_get request "params" in
  let id_json := r_json_get request "id" in
  match method with
  | None => ret tt
  | Some method =>
      match id_json with
      | Some id_node =>
          let id :=
            match id_node with
            | R_JSON_STRING str_value => Some str_value
            | R_JSON_INTEGER u_value => Some (decimal (to_int64 u_value))
            | _ => None
            end in
          response <- handle_mcp_request method params id ;;
          write_stdout response ;;
          write_stdout LF
      | None => ret tt
      end
  end
  end.

End Connector.
End Mcp.

(** ** A concrete radare2, for running the model on examples *)

Module Sample.
Import Libc Json.
Open Scope string_scope.

Definition hex_digit (n : nat) : ascii :=
  ascii_of_nat (if (n <? 10)%nat then 48 + n else 87 + n).

(** A JSON escaper of the documented kind: plain characters are copied,
    the double quote and the backslash get a backslash, and any other
    byte [c] is written as a [u00XX] escape. *)
Definition escape_char (c : ascii) : string :=
  if plain_char c then String c EmptyString
  else if (nat_of_ascii c =? 34)%nat || (nat_of_ascii c =? 92)%nat
  then String "092"%char (String c EmptyString)
  else String "092"%char
         (String "u"%char
            (String "0"%char
               (String "0"%char
                  (String (hex_digit (nat_of_ascii c / 16))
                     (String (hex_digit (nat_of_ascii c mod 16))
                        EmptyString))))).

Fixpoint escape (s : string) : string :=
  match s with
  | EmptyString => EmptyString
  | String c s' => escape_char c ++ escape s'
  end.

Lemma escape_plain_copy s : plain s = true -> escape s = s.
Proof.
  induction s as [|c s IH]; simpl; [reflexivity|].
  intros E. apply andb_prop in E. destruct E as [Ec Es].
  unfold escape_char. rewrite Ec. simpl. rewrite IH by exact Es. reflexivity.
Qed.

(** A core that opens ["/bin/ls"] only, through [r_core_file_open], and
    answers a command by echoing it between brackets. *)
#[export] Instance radare2 : Radare2 := {|
  r_str_escape_utf8_for_json := escape;
  escape_plain := escape_plain_copy;
  r_core_new_ok := true;
  r_core_cmd_str_result := fun _ cmd =>
    if starts_with "o " cmd then Some EmptyString
    else Some ("[" ++ cmd ++ "]");
  r_core_file_open_ok := fun _ path => path =? "/bin/ls";
  r_json_get_freed := fun _ _ => None
|}.

End Sample.

Module FramerFacts.
Import Framer.

Lemma split_lines_no_newline d :
  memchr d newline = None -> split_lines d = ([], d).
Proof.
  induction d as [|b d IH]; simpl; [reflexivity|].
  destruct (Byte.eqb b newline); [discriminate|].
  destruct (memchr d newline); [discriminate|].
  intros _. rewrite IH; reflexivity.
Qed.

Lemma split_lines_first m d :
  memchr m newline = None ->
  split_lines (m ++ newline :: d)
  = (m :: fst (split_lines d), snd (split_lines d)).
Proof.
  induction m as [|b m IH]; simpl.
  - intros _. destruct (split_lines d); reflexivity.
  - destruct (Byte.eqb b newline); [discriminate|].
    destruct (memchr m newline); [discriminate|].
    intros _. rewrite IH; reflexivity.
Qed.

Lemma split_lines_rest_no_newline d :
  memchr (snd (split_lines d)) newline = None.
Proof.
  induction d as [|b d IH]; simpl; [reflexivity|].
  destruct (split_lines d) as [msgs rest]; simpl in *.
  destruct (Byte.eqb b newline) eqn:E; simpl; [exact IH|].
  destruct msgs; simpl; [rewrite E, IH|]; auto.
Qed.

Lemma split_lines_rest_length d :
  length (snd (split_lines d)) <= length d.
Proof.
  induction d as [|b d IH]; simpl; [lia|].
  destruct (split_lines d) as [msgs rest]; simpl in *.
  destruct (Byte.eqb b newline); simpl; [lia|].
  destruct msgs; simpl; lia.
Qed.

Lemma split_lines_app a b :
  split_lines (a ++ b)
  = (fst (split_lines a) ++ fst (split_lines (snd (split_lines a) ++ b)),
     snd (split_lines (snd (split_lines a) ++ b))).
Proof.
  induction a as [|x a IH]; simpl.
  - destruct (split_lines b); reflexivity.
  - rewrite IH. destruct (split_lines a) as [m1 r1]; simpl.
    destruct (Byte.eqb x newline) eqn:E; simpl; [reflexivity|].
    destruct m1 as [|m m1]; simpl; [|reflexivity].
    destruct (split_lines (r1 ++ b)) as [m2 r2]; simpl.
    rewrite E. destruct m2; reflexivity.
Qed.

(** An extraction splits the buffer at its first newline. *)
Lemma get_message_split buf msg buf' :
  read_buffer_get_message buf = Some (msg, buf') ->
  data buf = msg ++ newline :: data buf'
  /\ memchr msg newline = None
  /\ capacity buf' = capacity buf.
Proof.
  unfold read_buffer_get_message.
  destruct (memchr (data buf) newline) as [i|] eqn:M; [|discriminate].
  intros H; inversion H; subst; clear H; simpl.
  destruct (memchr_split _ _ _ M) as [Hs Hn].
  rewrite (firstn_all2 (n := length (data buf) - (i + 1)))
    by (rewrite length_skipn; lia).
  auto.
Qed.

Lemma get_message_none buf :
  read_buffer_get_message buf = None -> memchr (data buf) newline = None.
Proof.
  unfold read_buffer_get_message.
  destruct (memchr (data buf) newline); [discriminate | reflexivity].
Qed.

Lemma extract_messages_split_lines buf :
  extract_messages buf
  = (fst (split_lines (data buf)),
     {| data := snd (split_lines (data buf)); capacity := capacity buf |}).
Proof.
  funelim (extract_messages buf).
  - destruct (get_message_split _ _ _ e) as (Hd & Hn & Hc).
    rewrite H, Hd, split_lines_first by exact Hn. simpl. rewrite Hc. reflexivity.
  - rewrite (split_lines_no_newline _ (get_message_none _ e)).
    destruct buf; reflexivity.
Qed.

Lemma append_well_sized buf chunk :
  well_sized buf -> fits chunk ->
  exists buf1, read_buffer_append buf chunk = Some buf1
    /\ data buf1 = data buf ++ chunk /\ well_sized buf1.
Proof.
  unfold well_sized, fits, read_buffer_append, size. intros [H1 H2] H3.
  destruct (N.ltb_spec (capacity buf) (N.of_nat (length (data buf)) + N.of_nat (length chunk))).
  - destruct (N.leb_spec (N.of_nat (length (data buf)) + N.of_nat (length chunk)) (capacity buf * 2)); [|lia].
    eexists; split; [reflexivity|]. simpl. rewrite length_app. split; [reflexivity|]. lia.
  - destruct (N.leb_spec (N.of_nat (length (data buf)) + N.of_nat (length chunk)) (capacity buf)); [|lia].
    eexists; split; [reflexivity|]. simpl. rewrite length_app. split; [reflexivity|]. lia.
Qed.

Lemma feed_split_lines chunks : forall buf,
  well_sized buf -> memchr (data buf) newline = None ->
  Forall fits chunks ->
  exists buf', feed buf chunks
               = Some (fst (split_lines (data buf ++ concat chunks)), buf')
    /\ data buf' = snd (split_lines (data buf ++ concat chunks)).
Proof.
  induction chunks as [|c cs IH]; intros buf W N F; simpl.
  - rewrite app_nil_r, split_lines_no_newline by exact N.
    exists buf; auto.
  - inversion F as [|? ? Fc Fcs]; subst.
    destruct (append_well_sized _ _ W Fc) as (buf1 & -> & D1 & W1).
    rewrite extract_messages_split_lines; simpl.
    set (buf2 := {| data := snd (split_lines (data buf1)); capacity := capacity buf1 |}).
    assert (W2 : well_sized buf2).
    { destruct W1 as [A B]. split; [|exact B]. unfold size in *; simpl.
      pose proof (split_lines_rest_length (data buf1)). lia. }
    destruct (IH buf2 W2 (split_lines_rest_no_newline _) Fcs) as (buf' & -> & D').
    exists buf'. simpl in *. rewrite D'.
    rewrite app_assoc, <- D1, (split_lines_app (data buf1) (concat cs)). auto.
Qed.


Lemma read_buffer_new_well_sized : well_sized read_buffer_new.
Proof. split; apply N.leb_le; reflexivity. Qed.

(** An append that stays inside the storage adds its bytes after the old
    ones. *)
Lemma append_data buf chunk buf1 :
  read_buffer_append buf chunk = Some buf1 -> data buf1 = data buf ++ chunk.
Proof.
  unfold read_buffer_append.
  destruct (_ <=? _)%N; [|discriminate].
  intros E; inversion E; reflexivity.
Qed.

(** Whatever [feed] returns is the reading of the bytes by lines, whatever
    the sizes of the chunks. *)
Lemma feed_sound chunks : forall buf msgs buf',
  memchr (data buf) newline = None ->
  feed buf chunks = Some (msgs, buf') ->
  msgs = fst (split_lines (data buf ++ concat chunks))
  /\ data buf' = snd (split_lines (data buf ++ concat chunks)).
Proof.
  induction chunks as [|c cs IH]; intros buf msgs buf' N; simpl.
  - intros E; inversion E; subst.
    rewrite app_nil_r, split_lines_no_newline by exact N. auto.
  - destruct (read_buffer_append buf c) as [buf1|] eqn:A; [|discriminate].
    rewrite extract_messages_split_lines; cbn [fst snd].
    set (buf2 := {| data := snd (split_lines (data buf1));
                    capacity := capacity buf1 |}).
    destruct (feed buf2 cs) as [[msgs2 buf3]|] eqn:R; [|discriminate].
    intros E; inversion E; subst; clear E.
    destruct (IH buf2 msgs2 buf' (split_lines_rest_no_newline _) R)
      as [M D].
    cbn [data buf2] in M, D.
    rewrite app_assoc, <- (append_data _ _ _ A),
      (split_lines_app (data buf1) (concat cs)).
    cbn [fst snd]. rewrite M, D. auto.
Qed.

(** A sequence of at most twice [BUFFER_SIZE] bytes appended at once to the
    new buffer stays inside the storage, which is doubled when needed. *)
Lemma feed_at_once bytes :
  (N.of_nat (length bytes) <= 2 * BUFFER_SIZE)%N ->
  exists buf,
    feed read_buffer_new [bytes] = Some (fst (split_lines bytes), buf)
    /\ data buf = snd (split_lines bytes).
Proof.
  intros L.
  assert (A : exists buf1, read_buffer_append read_buffer_new bytes
                           = Some buf1).
  { unfold read_buffer_append.
    change (size read_buffer_new) with 0%N.
    change (capacity read_buffer_new) with BUFFER_SIZE.
    cbv zeta. rewrite N.add_0_l.
    destruct (N.ltb_spec BUFFER_SIZE (N.of_nat (length bytes))).
    - destruct (N.leb_spec (N.of_nat (length bytes)) (BUFFER_SIZE * 2));
        [eexists; reflexivity | lia].
    - destruct (N.leb_spec (N.of_nat (length bytes)) BUFFER_SIZE);
        [eexists; reflexivity | lia]. }
  destruct A as [buf1 A].
  destruct (feed read_buffer_new [bytes]) as [[msgs buf]|] eqn:R.
  - destruct (feed_sound [bytes] read_buffer_new msgs buf eq_refl R)
      as [M D].
    cbn [data read_buffer_new concat app] in M, D.
    rewrite app_nil_r in M, D. subst msgs. exists buf. auto.
  - exfalso. cbn [feed] in R. rewrite A in R.
    destruct (extract_messages buf1); discriminate R.
Qed.








(** X25.  Framing does not depend on how the bytes are cut, as long as the
    appends stay inside the storage.  Whenever two ways of cutting one byte
    sequence both run without an overrun, they yield the same messages in
    the same order, namely the newline-terminated lines of the sequence
    without their newlines, and leave the same unterminated bytes in the
    buffer.  No cut into chunks of at most [BUFFER_SIZE] bytes overruns,
    and neither does the whole sequence appended at once when it has at
    most twice [BUFFER_SIZE] bytes.  An extraction returns the bytes before
    the first newline and leaves the bytes after it at the start of the
    buffer. *)
Theorem framing_within_the_storage chunks1 chunks2 :
  concat chunks1 = concat chunks2 ->
  (forall msgs1 buf1 msgs2 buf2,
      feed read_buffer_new chunks1 = Some (msgs1, buf1) ->
      feed read_buffer_new chunks2 = Some (msgs2, buf2) ->
      msgs1 = fst (split_lines (concat chunks1))
      /\ msgs2 = msgs1
      /\ data buf1 = snd (split_lines (concat chunks1))
      /\ data buf2 = data buf1)
  /\ (Forall fits chunks1 ->
      exists buf1,
        feed read_buffer_new chunks1
        = Some (fst (split_lines (concat chunks1)), buf1))
  /\ ((N.of_nat (length (concat chunks1)) <= 2 * BUFFER_SIZE)%N ->
      exists buf,
        feed read_buffer_new [concat chunks1]
        = Some (fst (split_lines (concat chunks1)), buf))
  /\ (forall buf msg buf',
        read_buffer_get_message buf = Some (msg, buf') ->
        data buf = msg ++ newline :: data buf'
        /\ memchr msg newline = None).
Proof.
  intros E. split; [|split; [|split]].
  - intros msgs1 buf1 msgs2 buf2 R1 R2.
    destruct (feed_sound chunks1 read_buffer_new msgs1 buf1 eq_refl R1)
      as [M1 D1].
    destruct (feed_sound chunks2 read_buffer_new msgs2 buf2 eq_refl R2)
      as [M2 D2].
    cbn [data read_buffer_new app] in *. rewrite <- E in M2, D2.
    repeat split; congruence.
  - intros F.
    destruct (feed_split_lines _ _ read_buffer_new_well_sized eq_refl F)
      as (buf1 & R1 & _).
    exists buf1. exact R1.
  - intros L. destruct (feed_at_once _ L) as (buf & R & _).
    exists buf. exact R.
  - intros buf msg buf' G.
    destruct (get_message_split _ _ _ G) as (D & N & _). auto.
Qed.

(** The bytes ["ab\ncd"] cut as ["a"], ["b\nc"], ["d"] and fed whole. *)
Lemma framing_within_the_storage_witness :
  exists buf1,
    feed read_buffer_new [[x61]; [x62; x0a; x63]; [x64]]
    = Some ([[x61; x62]], buf1).
Proof.
  refine (proj1 (proj2 (framing_within_the_storage
                          [[x61]; [x62; x0a; x63]; [x64]]
                          [[x61; x62; x0a; x63; x64]] eq_refl)) _).
  repeat constructor; apply N.leb_le; vm_compute; reflexivity.
Defined.

End FramerFacts.

(** ** Facts about strings and the envelopes *)

Module StringFacts.
Open Scope string_scope.

Lemma append_assoc (a b c : string) : (a ++ b) ++ c = a ++ (b ++ c).
Proof. induction a as [|x a IH]; simpl; [|rewrite IH]; reflexivity. Qed.

Lemma append_nil_r (a : string) : a ++ EmptyString = a.
Proof. induction a as [|x a IH]; simpl; [|rewrite IH]; reflexivity. Qed.

Lemma append_inv_head (a b c : string) : a ++ b = a ++ c -> b = c.
Proof.
  induction a as [|x a IH]; simpl; intros E; [exact E|].
  inversion E; auto.
Qed.

End StringFacts.

Module McpFacts.
Import Libc Json Pj Mcp StringFacts.
Open Scope string_scope.

(** The [id] member of an envelope, as [pj_ks] prints it. *)
Definition id_field `{Radare2} (id : option string) : string :=
  match id with
  | Some text => js ",'id':'" ++ r_str_escape_utf8_for_json text ++ dquote
  | None => EmptyString
  end.

(** The envelopes are evaluated on request only. *)
#[local] Arguments create_success_response : simpl never.
#[local] Arguments create_error_response : simpl never.
#[local] Arguments create_tool_error_response : simpl never.
#[local] Arguments create_tool_text_response : simpl never.
#[local] Arguments handle_list_tools : simpl never.
#[local] Arguments r2_open_file : simpl never.
#[local] Arguments r2_cmd : simpl never.
#[local] Arguments r2_analyze : simpl never.
#[local] Arguments fit : simpl never.
#[local] Arguments format_string : simpl never.
#[local] Arguments decimal : simpl never.

(** Printing is evaluated, the escaped constants are replaced by
    themselves and the appends put in one shape. *)
Ltac pj_eval :=
  unfold create_success_response, create_error_response,
    create_tool_error_response, create_tool_text_response, get_capabilities;
  cbn;
  repeat match goal with
         | |- context [r_str_escape_utf8_for_json ?text] =>
             rewrite (escape_plain text) by reflexivity
         end;
  rewrite ?append_assoc; cbn.

(** Running a state transformer whose branches are decided. *)
Ltac run :=
  unfold bind, ret, gets, modify; cbn.

Section Envelopes.
Context `{Radare2}.

Lemma create_success_response_text result id :
  create_success_response result id
  = js "{'jsonrpc':'2.0'" ++ id_field id ++ js ",'result':"
    ++ match result with Some text => text | None => "null" end ++ "}".
Proof. destruct id, result; pj_eval; reflexivity. Qed.

Lemma create_error_response_text code message id :
  create_error_response code message id None
  = js "{'jsonrpc':'2.0'" ++ id_field id ++ js ",'error':{'code':"
    ++ decimal code ++ js ",'message':'"
    ++ r_str_escape_utf8_for_json message ++ js "'}}".
Proof. destruct id; pj_eval; reflexivity. Qed.

Lemma create_tool_error_response_text message :
  create_tool_error_response message
  = js "{'content':[{'type':'text','text':'"
    ++ r_str_escape_utf8_for_json message ++ js "'}],'isError':true}".
Proof. pj_eval; reflexivity. Qed.

Lemma create_tool_text_response_text text :
  create_tool_text_response (Some text)
  = js "{'content':[{'type':'text','text':'"
    ++ r_str_escape_utf8_for_json text ++ js "'}]}".
Proof. pj_eval; reflexivity. Qed.

(** A success envelope is never the error envelope of the same request:
    after the common [jsonrpc] and [id] members one has the key [result],
    the other the key [error]. *)
Lemma success_is_not_error result id code message :
  create_success_response result id
  <> create_error_response code message id None.
Proof.
  rewrite create_success_response_text, create_error_response_text.
  intros E. apply append_inv_head in E. apply append_inv_head in E.
  apply (f_equal (String.get 2)) in E. cbn in E. discriminate E.
Qed.

End Envelopes.

Section Dispatch.
Context `{Radare2}.

(** The checks made before routing pass for the two tool-call methods
    when the server has the [tools] capability. *)
Lemma tool_call_passes_checks st method :
  method = "tools/call" \/ method = "tool/call" ->
  tools (capabilities st) = true ->
  assert_capability_for_method st method = None
  /\ assert_request_handler_capability st method = None.
Proof.
  intros [-> | ->] T; unfold assert_capability_for_method,
    assert_request_handler_capability, check_server_capability; cbn;
    rewrite ?T; auto.
Qed.

Lemma tool_call_routes method params id w :
  method = "tools/call" \/ method = "tool/call" ->
  tools (capabilities (server_state w)) = true ->
  handle_mcp_request method params id w
  = (create_success_response (Some (fst (handle_call_tool params w))) id,
     snd (handle_call_tool params w)).
Proof.
  intros Hm T. unfold handle_mcp_request; run.
  destruct (tool_call_passes_checks _ _ Hm T) as [-> ->].
  destruct Hm as [-> | ->]; cbn; destruct (handle_call_tool params w);
    reflexivity.
Qed.

End Dispatch.

Section ToolCalls.
Context `{Radare2}.

Definition NO_FILE_OPEN : string :=
  "No file is currently open. Please open a file first.".

(** C7.  A [ping] request is answered with the empty object [{}] whatever
    the state, and handling it leaves the whole state (hence every field
    of the server state and the current-file tracking) as it was. *)
Theorem ping_returns_empty_object params id w :
  handle_mcp_request "ping" params id w
  = (create_success_response (Some "{}") id, w)
  /\ create_success_response (Some "{}") id
     = js "{'jsonrpc':'2.0'" ++ id_field id ++ js ",'result':{}}".
Proof.
  split; [reflexivity|].
  rewrite create_success_response_text. reflexivity.
Qed.

(** C6.  [runCommand], [analyze] and [disassemble] called through
    [tools/call] (or [tool/call]) while no file is open: the response is a
    JSON-RPC success whose result is the tool-error envelope with the
    no-file text and [isError] true, and the state, with it the list of
    calls made to the analysis core, is unchanged. *)
Theorem tool_without_file_is_tool_error method tool params id w :
  method = "tools/call" \/ method = "tool/call" ->
  tool = "runCommand" \/ tool = "analyze" \/ tool = "disassemble" ->
  r_json_get_str params "name" = Some tool ->
  tools (capabilities (server_state w)) = true ->
  file_opened w = false ->
  handle_mcp_request method params id w
  = (create_success_response
       (Some (create_tool_error_response NO_FILE_OPEN)) id, w)
  /\ create_tool_error_response NO_FILE_OPEN
     = js "{'content':[{'type':'text','text':'No file is currently open. Please open a file first.'}],'isError':true}"
  /\ r_core (snd (handle_mcp_request method params id w)) = r_core w.
Proof.
  intros Hm Ht Hn T F.
  assert (E : handle_call_tool params w
              = (create_tool_error_response NO_FILE_OPEN, w)).
  { unfold handle_call_tool. rewrite Hn.
    destruct Ht as [-> | [-> | ->]]; run; rewrite F; reflexivity. }
  rewrite (tool_call_routes _ _ _ _ Hm T), E. cbn.
  repeat split.
  rewrite create_tool_error_response_text, escape_plain by reflexivity.
  reflexivity.
Qed.

(** The three ways in which [handle_call_tool] rejects its parameters,
    with the message of each. *)
Inductive rejected (w : World) (params : option RJson) : string -> Prop :=
| missing_name :
    r_json_get_str params "name" = None ->
    rejected w params "Missing required parameter: name"
| missing_filePath :
    r_json_get_str params "name" = Some "openFile" ->
    r_json_get_str (r_json_get params "arguments") "filePath" = None ->
    rejected w params "Missing required parameter: filePath"
| missing_command :
    r_json_get_str params "name" = Some "runCommand" ->
    file_opened w = true ->
    r_json_get_str (r_json_get params "arguments") "command" = None ->
    rejected w params "Missing required parameter: command"
| missing_address :
    r_json_get_str params "name" = Some "disassemble" ->
    file_opened w = true ->
    r_json_get_str (r_json_get params "arguments") "address" = None ->
    rejected w params "Missing required parameter: address"
| unknown_tool tool :
    r_json_get_str params "name" = Some tool ->
    tool <> "openFile" -> tool <> "closeFile" -> tool <> "runCommand" ->
    tool <> "analyze" -> tool <> "disassemble" ->
    rejected w params (format_string ("Unknown tool: " ++ tool)).

Lemma rejected_call_result w params message :
  rejected w params message ->
  handle_call_tool params w
  = (create_error_response (-32602) message None None, w).
Proof.
  intros R; unfold handle_call_tool.
  destruct R as [Hn | Hn Ha | Hn F Ha | Hn F Ha | tool Hn N1 N2 N3 N4 N5];
    rewrite Hn; cbn; run; rewrite ?F, ?Ha; cbn; try reflexivity.
  apply String.eqb_neq in N1, N2, N3, N4, N5.
  rewrite N1, N2, N3, N4, N5. cbn. rewrite andb_false_r. reflexivity.
Qed.

(** What the dispatcher answers to a rejected tool call: the error
    envelope, built without an id, becomes the [result] of a success
    envelope; that is not the error envelope carrying the request's id. *)
Lemma rejected_call_is_wrapped method params id w message :
  method = "tools/call" \/ method = "tool/call" ->
  tools (capabilities (server_state w)) = true ->
  rejected w params message ->
  handle_mcp_request method params (Some id) w
  = (create_success_response
       (Some (create_error_response (-32602) message None None)) (Some id),
     w)
  /\ fst (handle_mcp_request method params (Some id) w)
     <> create_error_response (-32602) message (Some id) None.
Proof.
  intros Hm T R.
  rewrite (tool_call_routes _ _ _ _ Hm T), (rejected_call_result _ _ _ R). cbn.
  split; [reflexivity | apply success_is_not_error].
Qed.

End ToolCalls.

Section FailingToolCalls.
Context `{Radare2}.

(** The request [{"jsonrpc":"2.0","id":1,"method":"tools/call","params":P}]. *)
Definition tools_call_request (id : RJson) (params : list (string * RJson))
  : RJson :=
  R_JSON_OBJECT [ ("jsonrpc", R_JSON_STRING "2.0"); ("id", id);
                  ("method", R_JSON_STRING "tools/call");
                  ("params", R_JSON_OBJECT params) ].

Definition call_without_name : RJson :=
  tools_call_request (R_JSON_INTEGER 1) [].

Definition call_openFile_without_path : RJson :=
  tools_call_request (R_JSON_INTEGER 1)
    [ ("name", R_JSON_STRING "openFile"); ("arguments", R_JSON_OBJECT []) ].

Definition call_unknown_tool : RJson :=
  tools_call_request (R_JSON_INTEGER 1)
    [ ("name", R_JSON_STRING "strings"); ("arguments", R_JSON_OBJECT []) ].

Definition emitted (request : RJson) (w : World) : string :=
  stdout (snd (process_mcp_message (Some request) w)).

(** C1.  The code at three failing tool calls with id 1 (no [name]; an
    [openFile] without [filePath]; an unknown tool): each line written is
    a success envelope with id ["1"] whose [result] member is the error
    envelope of code -32602, and that inner envelope has no id.  The claim
    asks for the error envelope itself, with the id, as the line. *)
Theorem tool_call_errors_are_nested_in_result :
  emitted call_without_name initial_world
  = js "{'jsonrpc':'2.0','id':'1','result':{'jsonrpc':'2.0','error':{'code':-32602,'message':'Missing required parameter: name'}}}" ++ LF
  /\ emitted call_openFile_without_path initial_world
  = js "{'jsonrpc':'2.0','id':'1','result':{'jsonrpc':'2.0','error':{'code':-32602,'message':'Missing required parameter: filePath'}}}" ++ LF
  /\ emitted call_unknown_tool initial_world
  = js "{'jsonrpc':'2.0','id':'1','result':{'jsonrpc':'2.0','error':{'code':-32602,'message':'Unknown tool: strings'}}}" ++ LF
  /\ emitted call_without_name initial_world
  <> create_error_response (-32602) "Missing required parameter: name"
       (Some "1") None ++ LF.
Proof.
  assert (E : forall message, plain message = true ->
    create_success_response
      (Some (create_error_response (-32602) message None None)) (Some "1")
    ++ LF
    = js "{'jsonrpc':'2.0','id':'1','result':{'jsonrpc':'2.0','error':{'code':-32602,'message':'"
      ++ message ++ js "'}}}" ++ LF).
  { intros message P.
    rewrite create_success_response_text, create_error_response_text.
    unfold id_field.
    rewrite (escape_plain message P), (escape_plain "1" eq_refl).
    rewrite !append_assoc. reflexivity. }
  unfold emitted, process_mcp_message; cbn.
  repeat split.
  - exact (E "Missing required parameter: name" eq_refl).
  - exact (E "Missing required parameter: filePath" eq_refl).
  - exact (E "Unknown tool: strings" eq_refl).
  - rewrite create_success_response_text, !create_error_response_text.
    rewrite !append_assoc. intros Q.
    apply append_inv_head in Q. apply append_inv_head in Q.
    apply (f_equal (String.get 2)) in Q. cbn in Q. discriminate Q.
Qed.

End FailingToolCalls.

Section Notifications.
Context `{Radare2}.

Definition is_string_or_integer (v : RJson) : bool :=
  match v with
  | R_JSON_STRING _ | R_JSON_INTEGER _ => true
  | _ => false
  end.

(** C2, amended.  A decoded request without an [id] member is dropped:
    the state is unchanged and nothing is written.  A request whose [id]
    is present but neither a string nor an integer is dispatched as usual,
    with no id, and its response line is written. *)
Theorem request_without_id_is_dropped request w :
  (r_json_get (Some request) "id" = None ->
   process_mcp_message (Some request) w = (tt, w))
  /\ (forall method id_node,
        r_json_get_str (Some request) "method" = Some method ->
        r_json_get (Some request) "id" = Some id_node ->
        is_string_or_integer id_node = false ->
        process_mcp_message (Some request) w
        = (write_stdout (fst (handle_mcp_request method
                                (r_json_get (Some request) "params") None w))
           ;; write_stdout LF)
            (snd (handle_mcp_request method
                    (r_json_get (Some request) "params") None w))).
Proof.
  unfold process_mcp_message; split.
  - intros ->. destruct (r_json_get_str (Some request) "method"); reflexivity.
  - intros method id_node -> -> T.
    assert (E : match id_node with
                | R_JSON_STRING str_value => Some str_value
                | R_JSON_INTEGER u_value => Some (decimal (to_int64 u_value))
                | _ => None
                end = None)
      by (destruct id_node; try reflexivity; discriminate T).
    rewrite E. unfold bind at 1.
    destruct (handle_mcp_request method _ None w); reflexivity.
Qed.

End Notifications.

Section Disassemble.
Context `{Radare2}.

(** C8.  A [disassemble] call on an open file whose [numInstructions] is
    present but is not a JSON integer asks the core for 10 instructions
    and returns its text as the tool result; no error is reported for the
    argument. *)
Theorem disassemble_defaults_to_10 params address value w :
  r_json_get_str params "name" = Some "disassemble" ->
  r_json_get_str (r_json_get params "arguments") "address" = Some address ->
  r_json_get (r_json_get params "arguments") "numInstructions" = Some value ->
  (forall u_value, value <> R_JSON_INTEGER u_value) ->
  file_opened w = true ->
  handle_call_tool params w
  = (create_tool_text_response
       (fst (r2_cmd (fit 128 ("pd 10 @ " ++ address)) w)),
     snd (r2_cmd (fit 128 ("pd 10 @ " ++ address)) w)).
Proof.
  intros Hn Ha Hv Hi F. unfold handle_call_tool.
  rewrite Hn; cbn. rewrite Ha, Hv. run. rewrite F; cbn.
  change (decimal 10) with "10".
  destruct value; try (exfalso; eapply Hi; reflexivity); cbn;
    destruct (r2_cmd _ w); reflexivity.
Qed.

End Disassemble.

Section OpenFile.
Context `{Radare2}.

(** The state after the close that [r2_open_file] performs on a core with
    call history [history]. *)
Definition closed (history : list R2Call) (w : World) : World :=
  set_current_file EmptyString
    (set_file_opened false
       (set_r_core (Some (history ++ [Cmd0 "o-*"])%list) w)).

(** C9.  [openFile] while a file is open: the core is first told to close
    every file ([o-*]) and the tracked state is cleared; from there the
    call runs exactly as an [openFile] with no file open, the command that
    opens the new file reaching the core after the close.  The result
    reports the outcome of opening the new file and nothing else. *)
Theorem open_file_closes_previous_first params filepath history w :
  r_json_get_str params "name" = Some "openFile" ->
  r_json_get_str (r_json_get params "arguments") "filePath" = Some filepath ->
  file_opened w = true ->
  r_core w = Some history ->
  r2_open_file filepath w = r2_open_file filepath (closed history w)
  /\ file_opened (closed history w) = false
  /\ current_file (closed history w) = EmptyString
  /\ (exists later,
        r_core (snd (r2_open_file filepath w))
        = Some (history
                ++ Cmd0 "o-*" :: Cmd0 "e bin.relocs.apply=true"
                   :: Cmd0 "e bin.cache=true"
                   :: CmdStr (fit 1024 ("o " ++ filepath)) :: later)%list)
  /\ handle_call_tool params w
     = (create_tool_text_response
          (Some (if fst (r2_open_file filepath (closed history w))
                 then "File opened successfully."
                 else "Failed to open file.")),
        snd (r2_open_file filepath (closed history w))).
Proof.
  intros Hn Hp F C.
  assert (E : r2_open_file filepath w
              = r2_open_file filepath (closed history w)).
  { destruct w as [core opened current st out]; cbn in F, C; subst.
    reflexivity. }
  split; [exact E|]. split; [reflexivity|]. split; [reflexivity|]. split.
  - destruct w as [core opened current st out]; cbn in F, C; subst.
    unfold r2_open_file, r_core_cmd_str, r_core_file_open, r_core_cmd0,
      r_core_bin_load, core_call.
    run.
    destruct (r_core_cmd_str_result _ _) as [[|c text]|]; cbn;
      try (destruct (r_core_file_open_ok _ _); cbn);
      repeat rewrite <- app_assoc; cbn; eexists; reflexivity.
  - unfold handle_call_tool. rewrite Hn; cbn. rewrite Hp. run.
    rewrite E.
    destruct (r2_open_file filepath (closed history w)); reflexivity.
Qed.

End OpenFile.

Section InitializedFlag.
Context `{Radare2}.

Definition with_initialized (b : bool) (w : World) : World :=
  set_server_state (set_initialized b (server_state w)) w.

(** A state transformer ignores the flag when setting the flag before it
    runs changes neither its result nor, apart from the flag, its final
    state. *)
Definition ignores_initialized {A} (c : M A) : Prop :=
  forall b w,
    c (with_initialized b w) = (fst (c w), with_initialized b (snd (c w))).

Lemma ignores_ret {A} (a : A) : ignores_initialized (ret a).
Proof. intros b w; reflexivity. Qed.

Lemma ignores_bind {A B} (c : M A) (k : A -> M B) :
  ignores_initialized c -> (forall a, ignores_initialized (k a)) ->
  ignores_initialized (bind c k).
Proof.
  intros Hc Hk b w. unfold bind. rewrite Hc.
  destruct (c w) as [a w']; cbn. apply Hk.
Qed.

Lemma ignores_gets {A} (f : World -> A) :
  (forall b w, f (with_initialized b w) = f w) ->
  ignores_initialized (gets f).
Proof. intros Hf b w; unfold gets; cbn. rewrite Hf; reflexivity. Qed.

Lemma ignores_modify (f : World -> World) :
  (forall b w, f (with_initialized b w) = with_initialized b (f w)) ->
  ignores_initialized (modify f).
Proof. intros Hf b w; unfold modify; cbn. rewrite Hf; reflexivity. Qed.

Lemma ignores_core_call call : ignores_initialized (core_call call).
Proof.
  apply ignores_modify; intros b w; cbn. destruct (r_core w); reflexivity.
Qed.

Lemma ignores_r_core_cmd_str cmd : ignores_initialized (r_core_cmd_str cmd).
Proof.
  intros b w; unfold r_core_cmd_str; cbn. destruct (r_core w); reflexivity.
Qed.

Lemma ignores_r_core_file_open path :
  ignores_initialized (r_core_file_open path).
Proof.
  intros b w; unfold r_core_file_open; cbn. destruct (r_core w); reflexivity.
Qed.

Ltac ignores_with known :=
  repeat first
    [ known
    | apply ignores_ret
    | apply ignores_core_call
    | apply ignores_r_core_cmd_str
    | apply ignores_r_core_file_open
    | apply ignores_gets; reflexivity
    | apply ignores_modify; reflexivity
    | apply ignores_bind; [|intros]
    | match goal with
      | |- ignores_initialized (if ?c then _ else _) => destruct c
      | |- ignores_initialized (match ?x with _ => _ end) => destruct x
      end ].

Lemma ignores_init_r2 : ignores_initialized init_r2.
Proof. unfold init_r2. ignores_with fail. Qed.

Lemma ignores_r2_open_file filepath :
  ignores_initialized (r2_open_file filepath).
Proof.
  unfold r2_open_file, r_core_cmd0, r_core_bin_load.
  ignores_with ltac:(apply ignores_init_r2).
Qed.

Lemma ignores_r2_cmd cmd : ignores_initialized (r2_cmd cmd).
Proof. unfold r2_cmd. ignores_with fail. Qed.

Lemma ignores_r2_analyze level : ignores_initialized (r2_analyze level).
Proof. unfold r2_analyze, r_core_cmd0. ignores_with fail. Qed.

Lemma ignores_handle_call_tool params :
  ignores_initialized (handle_call_tool params).
Proof.
  unfold handle_call_tool, r_core_cmd0.
  ignores_with
    ltac:(first [ apply ignores_r2_open_file | apply ignores_r2_cmd
                | apply ignores_r2_analyze ]).
Qed.

(** [handle_initialize] sets the flag itself, whatever it was. *)
Lemma handle_initialize_overwrites params b w :
  handle_initialize params (with_initialized b w)
  = handle_initialize params w.
Proof.
  unfold handle_initialize, bind, gets, r_json_free_kept.
  cbn [with_initialized server_state set_server_state set_initialized
       client_capabilities client_info].
  destruct (client_capabilities (server_state w)),
    (client_info (server_state w)); reflexivity.
Qed.

Lemma handle_initialize_sets_flag params w :
  initialized (server_state (snd (handle_initialize params w))) = true.
Proof.
  unfold handle_initialize, bind, gets, r_json_free_kept.
  destruct (client_capabilities (server_state w)),
    (client_info (server_state w)); reflexivity.
Qed.

Lemma checks_ignore_initialized b st method :
  assert_capability_for_method (set_initialized b st) method
  = assert_capability_for_method st method
  /\ assert_request_handler_capability (set_initialized b st) method
     = assert_request_handler_capability st method.
Proof. split; reflexivity. Qed.

(** What C10 asks of a handler [c] run from [w]: the same result, and the
    same final state up to the flag, whether or not the flag was set to
    [b] beforehand. *)
Definition flag_blind (b : bool) (w : World) (c : M string) : Prop :=
  fst (c (with_initialized b w)) = fst (c w)
  /\ forall b',
       with_initialized b' (snd (c (with_initialized b w)))
       = with_initialized b' (snd (c w)).

Lemma flag_blind_pure b w response :
  flag_blind b w (fun w0 => (response, w0)).
Proof. split; reflexivity. Qed.

Lemma flag_blind_ignores b w (c : M string) (wrap : string -> string) :
  ignores_initialized c ->
  flag_blind b w (fun w0 => let (a, w') := c w0 in (wrap a, w')).
Proof.
  intros I. unfold flag_blind. rewrite (I b w).
  destruct (c w) as [a w']; split; reflexivity.
Qed.

Lemma flag_blind_overwrites b w (c : M string) (wrap : string -> string) :
  c (with_initialized b w) = c w ->
  flag_blind b w (fun w0 => let (a, w') := c w0 in (wrap a, w')).
Proof.
  intros O. unfold flag_blind. rewrite O.
  destruct (c w) as [a w']; split; reflexivity.
Qed.

Lemma dispatch_after_setting_flag method params id b w :
  flag_blind b w (handle_mcp_request method params id).
Proof.
  unfold flag_blind, handle_mcp_request, bind, gets, ret.
  cbn [server_state with_initialized set_server_state].
  destruct (checks_ignore_initialized b (server_state w) method) as [E1 E2].
  rewrite E1, E2.
  match goal with
  | |- fst (?c _) = _ /\ _ => change (flag_blind b w c)
  end.
  destruct (assert_capability_for_method (server_state w) method);
    [apply flag_blind_pure|].
  destruct (assert_request_handler_capability (server_state w) method);
    [apply flag_blind_pure|].
  repeat match goal with
         | |- flag_blind _ _ (if ?c then _ else _) =>
             destruct c; try apply flag_blind_pure
         end.
  - apply (flag_blind_overwrites b w (handle_initialize params)
             (fun a => create_success_response (Some a) id)).
    apply handle_initialize_overwrites.
  - apply (flag_blind_ignores b w (handle_call_tool params)
             (fun a => create_success_response (Some a) id)).
    apply ignores_handle_call_tool.
Qed.

(** C10.  The dispatcher never reads the [initialized] flag: for every
    method, parameters and id, the response is the same from a state where
    the flag is true as from the same state where it is false, and the two
    final states differ at most in that flag.  The [initialize] handler
    sets the flag. *)
Theorem dispatch_ignores_initialized method params id w :
  fst (handle_mcp_request method params id (with_initialized true w))
  = fst (handle_mcp_request method params id (with_initialized false w))
  /\ (forall b,
        with_initialized b
          (snd (handle_mcp_request method params id
                  (with_initialized true w)))
        = with_initialized b
            (snd (handle_mcp_request method params id
                    (with_initialized false w))))
  /\ initialized (server_state (snd (handle_initialize params w))) = true.
Proof.
  destruct (dispatch_after_setting_flag method params id true w) as [R1 S1].
  destruct (dispatch_after_setting_flag method params id false w) as [R2 S2].
  split; [congruence|]. split; [|apply handle_initialize_sets_flag].
  intros b. rewrite S1, S2. reflexivity.
Qed.

End InitializedFlag.

Section ToolList.
Context `{Radare2}.

Fixpoint occurs (needle text : string) : bool :=
  prefix needle text
  || match text with
     | EmptyString => false
     | String _ text' => occurs needle text'
     end.

(** The text that [handle_list_tools] prints for the whole catalog: the
    five descriptors in the order of the array [tools], each with its
    name, description and input schema, and no [nextCursor] member. *)
Definition ALL_TOOLS : string :=
  js "{'tools':["
  ++ js "{'name':'openFile','description':'Open a file for analysis','inputSchema':{'type':'object','properties':{'filePath':{'type':'string','description':'Path to the file to open'}},'required':['filePath']}}"
  ++ ","
  ++ js "{'name':'closeFile','description':'Close the currently open file','inputSchema':{'type':'object','properties':{}}}"
  ++ ","
  ++ js "{'name':'runCommand','description':'Run a radare2 command and get the output','inputSchema':{'type':'object','properties':{'command':{'type':'string','description':'Command to execute'}},'required':['command']}}"
  ++ ","
  ++ js "{'name':'analyze','description':'Run analysis on the current file','inputSchema':{'type':'object','properties':{'level':{'type':'string','description':'Analysis level (a, aa, aaa, aaaa)'}},'required':[]}}"
  ++ ","
  ++ js "{'name':'disassemble','description':'Disassemble instructions at a given address','inputSchema':{'type':'object','properties':{'address':{'type':'string','description':'Address to start disassembly'},'numInstructions':{'type':'integer','description':'Number of instructions to disassemble'}},'required':['address']}}"
  ++ "]}".

(** C4.  [tools/list] (or [tool/list]) without a cursor: the result of the
    response is [ALL_TOOLS], the descriptors of [openFile], [closeFile],
    [runCommand], [analyze] and [disassemble] in that order, and it holds
    no [nextCursor] member.  The state is untouched. *)
Theorem list_tools_without_cursor method params id w :
  method = "tools/list" \/ method = "tool/list" ->
  r_json_get_str params "cursor" = None ->
  tools (capabilities (server_state w)) = true ->
  handle_list_tools params = ALL_TOOLS
  /\ handle_mcp_request method params id w
     = (create_success_response (Some ALL_TOOLS) id, w)
  /\ occurs "nextCursor" ALL_TOOLS = false.
Proof.
  intros Hm C T.
  assert (L : handle_list_tools params = ALL_TOOLS).
  { unfold handle_list_tools. rewrite C. vm_compute. reflexivity. }
  split; [exact L|]. split; [|vm_compute; reflexivity].
  unfold handle_mcp_request, bind, gets, ret.
  unfold assert_request_handler_capability, check_server_capability.
  destruct Hm as [-> | ->]; cbn; rewrite ?T, L; reflexivity.
Qed.

Definition is_digit (c : ascii) : bool :=
  match digit c with Some _ => true | None => false end.

(** [no_number s]: after white space and a sign, [s] has no digit for
    [atoi] to read. *)
Definition no_number (s : string) : bool :=
  match skip_spaces s with
  | EmptyString => true
  | String c s' =>
      if Ascii.eqb c "-"%char || Ascii.eqb c "+"%char
      then match s' with
           | EmptyString => true
           | String d _ => negb (is_digit d)
           end
      else negb (is_digit c)
  end.

Lemma digits_without_digit s :
  match s with EmptyString => true | String d _ => negb (is_digit d) end
  = true ->
  digits 0 s = 0%Z.
Proof.
  destruct s as [|d s]; cbn; [reflexivity|]. unfold is_digit.
  destruct (digit d); [discriminate | reflexivity].
Qed.

Lemma atoi_no_number s : no_number s = true -> atoi s = 0%Z.
Proof.
  unfold no_number, atoi, strtol.
  destruct (skip_spaces s) as [|c s']; [reflexivity|].
  destruct (Ascii.eqb c "-"%char) eqn:Em; cbn [orb].
  - intros D. rewrite (digits_without_digit _ D). reflexivity.
  - destruct (Ascii.eqb c "+"%char) eqn:Ep.
    + intros D. rewrite (digits_without_digit _ D). reflexivity.
    + intros D. rewrite (digits_without_digit (String c s') D). reflexivity.
Qed.

Lemma to_int32_in_range z :
  (- 2 ^ 31 <= z < 2 ^ 31)%Z -> to_int32 z = z.
Proof.
  intros R. unfold to_int32. rewrite Z.mod_small by lia. lia.
Qed.

(** C3, amended.  A [tools/list] request whose cursor cannot be read as a
    number, or reads as a negative one, gets the page that starts at the
    beginning of the catalog.  A cursor that reads as a number from the
    catalog length up is not clamped: its page is empty and has no
    [nextCursor].  Whatever the cursor, the response is a success
    envelope. *)
Theorem cursor_is_clamped_below_only params cursor id w :
  r_json_get_str params "cursor" = Some cursor ->
  tools (capabilities (server_state w)) = true ->
  (no_number cursor = true \/ (atoi cursor < 0)%Z ->
   handle_list_tools params = handle_list_tools None)
  /\ ((Z.of_nat (List.length tool_table) <= atoi cursor <= 2 ^ 31 - 11)%Z ->
      handle_list_tools params = js "{'tools':[]}")
  /\ handle_mcp_request "tools/list" params id w
     = (create_success_response (Some (handle_list_tools params)) id, w).
Proof.
  intros C T. split; [|split].
  - intros B. unfold handle_list_tools. rewrite C.
    destruct B as [N | N].
    + rewrite (atoi_no_number _ N). reflexivity.
    + apply Z.ltb_lt in N. rewrite N. reflexivity.
  - change (Z.of_nat (List.length tool_table)) with 5%Z. intros R.
    unfold handle_list_tools. rewrite C.
    change (Z.of_nat (List.length tool_table)) with 5%Z.
    destruct (Z.ltb_spec (atoi cursor) 0) as [L | _]; [lia|].
    rewrite to_int32_in_range by lia.
    destruct (Z.gtb_spec (atoi cursor + 10) 5) as [_ | G]; [|lia].
    replace (Z.to_nat (5 - atoi cursor)) with 0%nat by lia. reflexivity.
  - unfold handle_mcp_request, bind, gets, ret.
    unfold assert_request_handler_capability, check_server_capability.
    cbn. rewrite T. reflexivity.
Qed.

End ToolList.

(** ** The theorems at concrete requests, on the sample radare2 *)

Definition tool_params (tool : string) (arguments : list (string * RJson))
  : option RJson :=
  Some (R_JSON_OBJECT [ ("name", R_JSON_STRING tool);
                        ("arguments", R_JSON_OBJECT arguments) ]).

(** The state after [openFile] has opened ["/bin/ls"]. *)
Definition world_with_file : World :=
  snd (handle_call_tool (H := Sample.radare2)
         (tool_params "openFile" [("filePath", R_JSON_STRING "/bin/ls")])
         initial_world).

Lemma tool_without_file_is_tool_error_witness :
  handle_mcp_request (H := Sample.radare2) "tools/call"
    (tool_params "runCommand" [("command", R_JSON_STRING "i")])
    (Some "7") initial_world
  = (js "{'jsonrpc':'2.0','id':'7','result':{'content':[{'type':'text','text':'No file is currently open. Please open a file first.'}],'isError':true}}",
     initial_world).
Proof.
  refine (eq_trans
            (proj1 (@tool_without_file_is_tool_error Sample.radare2
                      "tools/call" "runCommand"
                      (tool_params "runCommand"
                         [("command", R_JSON_STRING "i")])
                      (Some "7") initial_world _ _ _ _ _)) _);
    try reflexivity; auto.
Defined.

Lemma disassemble_defaults_to_10_witness :
  file_opened world_with_file = true
  /\ fst (handle_call_tool (H := Sample.radare2)
            (tool_params "disassemble"
               [ ("address", R_JSON_STRING "main");
                 ("numInstructions", R_JSON_STRING "5") ])
            world_with_file)
     = js "{'content':[{'type':'text','text':'[pd 10 @ main]'}]}".
Proof.
  split; [reflexivity|].
  refine (eq_trans
            (f_equal fst
               (@disassemble_defaults_to_10 Sample.radare2
                  (tool_params "disassemble"
                     [ ("address", R_JSON_STRING "main");
                       ("numInstructions", R_JSON_STRING "5") ])
                  "main" (R_JSON_STRING "5") world_with_file _ _ _ _ _)) _);
    try reflexivity.
  intros u_value E; discriminate E.
Defined.

Lemma open_file_closes_previous_first_witness :
  r_core (snd (handle_call_tool (H := Sample.radare2)
                 (tool_params "openFile"
                    [("filePath", R_JSON_STRING "/missing")])
                 world_with_file))
  = Some [ ConfigSetI "scr.color" 0; Cmd0 "e bin.relocs.apply=true";
           Cmd0 "e bin.cache=true"; CmdStr "o /bin/ls"; FileOpen "/bin/ls";
           BinLoad "/bin/ls"; Cmd0 "ob";
           Cmd0 "o-*"; Cmd0 "e bin.relocs.apply=true";
           Cmd0 "e bin.cache=true"; CmdStr "o /missing";
           FileOpen "/missing" ]
  /\ fst (handle_call_tool (H := Sample.radare2)
            (tool_params "openFile"
               [("filePath", R_JSON_STRING "/missing")])
            world_with_file)
     = js "{'content':[{'type':'text','text':'Failed to open file.'}]}".
Proof.
  pose proof (@open_file_closes_previous_first Sample.radare2
                (tool_params "openFile"
                   [("filePath", R_JSON_STRING "/missing")])
                "/missing"
                [ ConfigSetI "scr.color" 0; Cmd0 "e bin.relocs.apply=true";
                  Cmd0 "e bin.cache=true"; CmdStr "o /bin/ls";
                  FileOpen "/bin/ls"; BinLoad "/bin/ls"; Cmd0 "ob" ]
                world_with_file eq_refl eq_refl eq_refl eq_refl)
    as (_ & _ & _ & _ & E).
  rewrite E. split; reflexivity.
Defined.

Lemma list_tools_without_cursor_witness :
  handle_mcp_request (H := Sample.radare2) "tools/list"
    (Some (R_JSON_OBJECT [])) (Some "7") initial_world
  = (create_success_response (H := Sample.radare2) (Some ALL_TOOLS)
       (Some "7"),
     initial_world).
Proof.
  exact (proj1 (proj2 (@list_tools_without_cursor Sample.radare2
                         "tools/list" (Some (R_JSON_OBJECT [])) (Some "7")
                         initial_world (or_introl eq_refl) eq_refl
                         eq_refl))).
Defined.

Definition cursor_params (cursor : string) : option RJson :=
  Some (R_JSON_OBJECT [("cursor", R_JSON_STRING cursor)]).

(** C3 as stated fails for a cursor above the catalog length: the cursor
    ["7"] is not clamped to 0, the page is empty. *)
Lemma cursor_past_the_end_is_not_clamped :
  (atoi "7" > Z.of_nat (List.length tool_table))%Z
  /\ handle_list_tools (cursor_params "7") = js "{'tools':[]}"
  /\ handle_list_tools (cursor_params "7") <> handle_list_tools None.
Proof.
  split; [reflexivity|]. split; [reflexivity|].
  vm_compute. intros E; discriminate E.
Qed.

Lemma cursor_is_clamped_below_only_witness :
  handle_list_tools (cursor_params "-3") = handle_list_tools None
  /\ handle_list_tools (cursor_params "next") = handle_list_tools None
  /\ handle_list_tools (cursor_params "5") = js "{'tools':[]}".
Proof.
  split; [|split].
  - refine (proj1 (@cursor_is_clamped_below_only Sample.radare2
                     (cursor_params "-3") "-3" None initial_world
                     eq_refl eq_refl) _).
    right. reflexivity.
  - refine (proj1 (@cursor_is_clamped_below_only Sample.radare2
                     (cursor_params "next") "next" None initial_world
                     eq_refl eq_refl) _).
    left. reflexivity.
  - refine (proj1 (proj2 (@cursor_is_clamped_below_only Sample.radare2
                            (cursor_params "5") "5" None initial_world
                            eq_refl eq_refl)) _).
    split; vm_compute; intros E; discriminate E.
Defined.

(** [{"jsonrpc":"2.0","id":true,"method":"ping"}] *)
Definition ping_with_boolean_id : RJson :=
  R_JSON_OBJECT [ ("jsonrpc", R_JSON_STRING "2.0");
                  ("id", R_JSON_BOOLEAN true);
                  ("method", R_JSON_STRING "ping") ].

(** [{"jsonrpc":"2.0","method":"ping"}] *)
Definition ping_without_id : RJson :=
  R_JSON_OBJECT [ ("jsonrpc", R_JSON_STRING "2.0");
                  ("method", R_JSON_STRING "ping") ].

(** C2 as stated fails for an id that is present with another type: the
    request with the id [true] is dispatched and a line is written. *)
Lemma boolean_id_is_answered :
  r_json_get (Some ping_with_boolean_id) "id" = Some (R_JSON_BOOLEAN true)
  /\ stdout (snd (process_mcp_message (H := Sample.radare2)
                    (Some ping_with_boolean_id) initial_world))
     = js "{'jsonrpc':'2.0','result':{}}" ++ LF
  /\ process_mcp_message (H := Sample.radare2)
       (Some ping_with_boolean_id) initial_world
     <> (tt, initial_world).
Proof.
  split; [reflexivity|]. split; [reflexivity|].
  intros E. apply (f_equal (fun r => stdout (snd r))) in E.
  vm_compute in E. discriminate E.
Qed.

Lemma request_without_id_is_dropped_witness :
  process_mcp_message (H := Sample.radare2) (Some ping_without_id)
    initial_world
  = (tt, initial_world)
  /\ stdout (snd (process_mcp_message (H := Sample.radare2)
                    (Some ping_with_boolean_id) initial_world))
     = js "{'jsonrpc':'2.0','result':{}}" ++ LF.
Proof.
  split.
  - exact (proj1 (@request_without_id_is_dropped Sample.radare2
                    ping_without_id initial_world) eq_refl).
  - rewrite (proj2 (@request_without_id_is_dropped Sample.radare2
                      ping_with_boolean_id initial_world)
               "ping" (R_JSON_BOOLEAN true) eq_refl eq_refl eq_refl).
    reflexivity.
Defined.

End McpFacts.

(** ** More about the read buffer *)

Module FramerLaws.
Import Framer FramerFacts.

(** The messages written back with their newlines. *)
Definition with_newlines (msgs : list (list byte)) : list byte :=
  flat_map (fun msg => msg ++ [newline]) msgs.

Lemma split_lines_join d :
  d = with_newlines (fst (split_lines d)) ++ snd (split_lines d).
Proof.
  induction d as [|b d IH]; simpl; [reflexivity|].
  destruct (split_lines d) as [msgs rest]; simpl in *.
  destruct (Byte.eqb b newline) eqn:E; simpl.
  - apply Byte.byte_dec_bl in E. subst b. f_equal. exact IH.
  - destruct msgs as [|m msgs]; simpl in *; f_equal; exact IH.
Qed.

Lemma split_lines_messages d :
  Forall (fun msg => memchr msg newline = None) (fst (split_lines d)).
Proof.
  induction d as [|b d IH]; simpl; [constructor|].
  destruct (split_lines d) as [msgs rest]; simpl in *.
  destruct (Byte.eqb b newline) eqn:E; simpl.
  - constructor; [reflexivity | exact IH].
  - destruct msgs as [|m msgs]; simpl; [constructor|].
    inversion IH as [|? ? Hm Hr]; subst. constructor; [|exact Hr].
    simpl. rewrite E, Hm. reflexivity.
Qed.

(** X1.  The extraction loop loses and reorders nothing: the extracted
    messages, each followed by a newline, and then the bytes left in the
    buffer are the bytes the buffer held; no message and no left-over
    contains a newline, and the storage keeps its capacity. *)
Theorem extraction_loses_nothing buf :
  data buf
  = with_newlines (fst (extract_messages buf))
    ++ data (snd (extract_messages buf))
  /\ Forall (fun msg => memchr msg newline = None)
       (fst (extract_messages buf))
  /\ memchr (data (snd (extract_messages buf))) newline = None
  /\ capacity (snd (extract_messages buf)) = capacity buf.
Proof.
  rewrite extract_messages_split_lines; simpl.
  split; [apply split_lines_join|].
  split; [apply split_lines_messages|].
  split; [apply split_lines_rest_no_newline | reflexivity].
Qed.

(** X2.  [read_buffer_append] stays inside the storage exactly when one
    doubling is enough: it fails when the bytes held and the new bytes
    exceed twice the capacity; otherwise the new bytes follow the old
    ones, the size is within the capacity, and the capacity is the old
    one or its double. *)
Theorem append_bounds buf bytes :
  match read_buffer_append buf bytes with
  | Some buf' =>
      (size buf + N.of_nat (length bytes) <= 2 * capacity buf)%N
      /\ data buf' = data buf ++ bytes
      /\ (size buf' <= capacity buf')%N
      /\ (capacity buf' = capacity buf
          \/ (capacity buf < size buf + N.of_nat (length bytes))%N
             /\ capacity buf' = (2 * capacity buf)%N)
  | None => (2 * capacity buf < size buf + N.of_nat (length bytes))%N
  end.
Proof.
  unfold read_buffer_append, size.
  destruct (N.ltb_spec (capacity buf)
              (N.of_nat (length (data buf)) + N.of_nat (length bytes))).
  - destruct (N.leb_spec
                (N.of_nat (length (data buf)) + N.of_nat (length bytes))
                (capacity buf * 2)); cbn [data capacity]; [|lia].
    rewrite length_app.
    split; [lia|]. split; [reflexivity|]. split; [lia|]. right. lia.
  - destruct (N.leb_spec
                (N.of_nat (length (data buf)) + N.of_nat (length bytes))
                (capacity buf)); cbn [data capacity]; [|lia].
    rewrite length_app.
    split; [lia|]. split; [reflexivity|]. split; [lia|]. left. reflexivity.
Qed.

End FramerLaws.

(** ** More about the dispatcher and the tools *)

Module McpLaws.
Import Libc Json Pj Mcp StringFacts McpFacts.
Open Scope string_scope.

#[local] Arguments create_success_response : simpl never.
#[local] Arguments create_error_response : simpl never.
#[local] Arguments create_tool_error_response : simpl never.
#[local] Arguments create_tool_text_response : simpl never.
#[local] Arguments handle_list_tools : simpl never.
#[local] Arguments r2_open_file : simpl never.
#[local] Arguments r2_cmd : simpl never.
#[local] Arguments r2_analyze : simpl never.
#[local] Arguments fit : simpl never.
#[local] Arguments format_string : simpl never.
#[local] Arguments decimal : simpl never.

Section Frames.
Context `{Radare2}.

(** [keeps f c]: running [c] leaves the part [f] of the state as it was. *)
Definition keeps {A B} (f : World -> B) (c : M A) : Prop :=
  forall w, f (snd (c w)) = f w.

Lemma keeps_ret {A B} (f : World -> B) (a : A) : keeps f (ret a).
Proof. intros w; reflexivity. Qed.

Lemma keeps_bind {A B C} (f : World -> C) (c : M A) (k : A -> M B) :
  keeps f c -> (forall a, keeps f (k a)) -> keeps f (bind c k).
Proof.
  intros Hc Hk w. unfold bind. specialize (Hc w).
  destruct (c w) as [a w']; cbn in *. rewrite Hk. exact Hc.
Qed.

Lemma keeps_gets {A B} (f : World -> B) (g : World -> A) : keeps f (gets g).
Proof. intros w; reflexivity. Qed.

Lemma keeps_modify {B} (f : World -> B) (g : World -> World) :
  (forall w, f (g w) = f w) -> keeps f (modify g).
Proof. intros Hg w; unfold modify; cbn. apply Hg. Qed.

(** The parts of the state that no call on the core changes. *)
Definition core_blind {B} (f : World -> B) : Prop :=
  forall c w, f (set_r_core c w) = f w.

Lemma keeps_core_call {B} (f : World -> B) call :
  core_blind f -> keeps f (core_call call).
Proof.
  intros Hf. apply keeps_modify. intros w.
  destruct (r_core w); [apply Hf | reflexivity].
Qed.

Lemma keeps_r_core_cmd_str {B} (f : World -> B) cmd :
  core_blind f -> keeps f (r_core_cmd_str cmd).
Proof.
  intros Hf w. unfold r_core_cmd_str.
  destruct (r_core w); cbn; [apply Hf | reflexivity].
Qed.

Lemma keeps_r_core_file_open {B} (f : World -> B) path :
  core_blind f -> keeps f (r_core_file_open path).
Proof.
  intros Hf w. unfold r_core_file_open.
  destruct (r_core w); cbn; [apply Hf | reflexivity].
Qed.

(** The server's own description: it is set at start and stays. *)
Definition static (w : World)
  : ServerInfo * ServerCapabilities * option string :=
  (info (server_state w), capabilities (server_state w),
   instructions (server_state w)).

Lemma static_core_blind : core_blind static.
Proof. intros c w; reflexivity. Qed.

Lemma stdout_core_blind : core_blind stdout.
Proof. intros c w; reflexivity. Qed.

Section Handlers.
Context {B : Type} (f : World -> B).
Hypothesis f_core : core_blind f.
Hypothesis f_file_opened : forall b w, f (set_file_opened b w) = f w.
Hypothesis f_current_file : forall s w, f (set_current_file s w) = f w.

Lemma keeps_init_r2 : keeps f init_r2.
Proof.
  unfold init_r2. destruct r_core_new_ok;
    (apply keeps_bind; [apply keeps_modify; intros; apply f_core
                       | intros; apply keeps_ret]).
Qed.

Ltac file_steps :=
  repeat first
    [ apply keeps_init_r2
    | apply keeps_ret
    | apply keeps_gets
    | apply keeps_core_call; exact f_core
    | apply keeps_r_core_cmd_str; exact f_core
    | apply keeps_r_core_file_open; exact f_core
    | apply keeps_modify; intros; first [apply f_file_opened
                                        | apply f_current_file]
    | apply keeps_bind; [|intros]
    | match goal with
      | |- keeps _ (if ?c then _ else _) => destruct c
      | |- keeps _ (match ?x with _ => _ end) => destruct x
      end ].

Lemma keeps_r2_open_file filepath : keeps f (r2_open_file filepath).
Proof.
  unfold r2_open_file, r_core_cmd0, r_core_bin_load. file_steps.
Qed.

Lemma keeps_r2_cmd cmd : keeps f (r2_cmd cmd).
Proof. unfold r2_cmd. file_steps. Qed.

Lemma keeps_r2_analyze level : keeps f (r2_analyze level).
Proof. unfold r2_analyze, r_core_cmd0. file_steps. Qed.

Lemma keeps_handle_call_tool params : keeps f (handle_call_tool params).
Proof.
  unfold handle_call_tool, r_core_cmd0.
  repeat first
    [ apply keeps_r2_open_file | apply keeps_r2_cmd
    | apply keeps_r2_analyze | progress file_steps ].
Qed.

Hypothesis f_server_state :
  forall caps client b w,
    f (set_server_state
         (set_initialized b (set_client caps client (server_state w))) w)
    = f w.

Hypothesis f_undefined : forall b w, f (set_undefined b w) = f w.

Lemma keeps_r_json_free_kept pointer : keeps f (r_json_free_kept pointer).
Proof.
  destruct pointer; [apply keeps_modify; intros; apply f_undefined
                    | apply keeps_ret].
Qed.

Lemma keeps_handle_initialize params : keeps f (handle_initialize params).
Proof.
  unfold handle_initialize.
  apply keeps_bind; [apply keeps_gets|]. intros old.
  apply keeps_bind; [apply keeps_r_json_free_kept|]. intros _.
  apply keeps_bind; [apply keeps_r_json_free_kept|]. intros _.
  intros w. cbn. apply (f_server_state _ _ true w).
Qed.

Lemma keeps_handle_mcp_request method params id :
  keeps f (handle_mcp_request method params id).
Proof.
  unfold handle_mcp_request.
  apply keeps_bind; [apply keeps_gets|]. intros st.
  destruct (assert_capability_for_method st method); [apply keeps_ret|].
  destruct (assert_request_handler_capability st method);
    [apply keeps_ret|].
  repeat match goal with
         | |- keeps _ (if ?c then _ else _) =>
             destruct c; try apply keeps_ret
         end.
  - apply keeps_bind; [apply keeps_handle_initialize|].
    intros; apply keeps_ret.
  - apply keeps_bind; [apply keeps_handle_call_tool|].
    intros; apply keeps_ret.
Qed.

End Handlers.
End Frames.
Section Responses.
Context `{Radare2}.

(** The id string that [process_mcp_message] passes on for an [id] node. *)
Definition request_id (id_node : RJson) : option string :=
  match id_node with
  | R_JSON_STRING str_value => Some str_value
  | R_JSON_INTEGER u_value => Some (decimal (to_int64 u_value))
  | _ => None
  end.

(** The method and the id node of a request that gets an answer. *)
Definition addressed (request : option RJson) : option (string * RJson) :=
  match r_json_get_str request "method", r_json_get request "id" with
  | Some method, Some id_node => Some (method, id_node)
  | _, _ => None
  end.

(** X3.  Handling a message never changes the server's own name, version,
    capabilities and instructions, whatever the message. *)
Theorem server_description_is_constant request w :
  static (snd (process_mcp_message request w)) = static w.
Proof.
  assert (K : forall method params id,
             keeps static (handle_mcp_request method params id)).
  { intros. apply keeps_handle_mcp_request;
      [apply static_core_blind | intros; reflexivity ..]. }
  unfold process_mcp_message.
  destruct request as [request|]; [|reflexivity].
  destruct (r_json_get_str (Some request) "method") as [method|];
    [|reflexivity].
  destruct (r_json_get (Some request) "id") as [id_node|]; [|reflexivity].
  apply keeps_bind; [apply K|]. intros response.
  apply keeps_bind; intros; apply keeps_modify; intros; reflexivity.
Qed.

Lemma process_unaddressed request w :
  addressed request = None -> process_mcp_message request w = (tt, w).
Proof.
  unfold addressed, process_mcp_message.
  destruct request as [request|]; [|reflexivity].
  destruct (r_json_get_str (Some request) "method") as [method|];
    [|reflexivity].
  destruct (r_json_get (Some request) "id") as [id_node|];
    [discriminate | reflexivity].
Qed.

Lemma process_addressed request method id_node w :
  addressed request = Some (method, id_node) ->
  stdout (snd (process_mcp_message request w))
  = stdout w
    ++ fst (handle_mcp_request method (r_json_get request "params")
              (request_id id_node) w)
    ++ LF.
Proof.
  unfold addressed, process_mcp_message.
  destruct request as [request|]; [|discriminate].
  destruct (r_json_get_str (Some request) "method") as [method'|];
    [|discriminate].
  destruct (r_json_get (Some request) "id") as [id_node'|]; [|discriminate].
  intros E; inversion E; subst; clear E.
  fold (request_id id_node).
  pose proof (keeps_handle_mcp_request stdout stdout_core_blind
                (fun _ _ => eq_refl) (fun _ _ => eq_refl)
                (fun _ _ _ _ => eq_refl) (fun _ _ => eq_refl)
                method (r_json_get (Some request) "params")
                (request_id id_node) w) as K.
  unfold bind.
  destruct (handle_mcp_request method _ (request_id id_node) w)
    as [response w'].
  cbn in *. rewrite K. apply append_assoc.
Qed.

(** X4.  A message that has a string [method] and an [id] member appends
    exactly the dispatcher's response and a newline to the output written
    so far; the handlers themselves write nothing.  Any other message (not
    JSON, no string [method], no [id]) leaves the whole state, output
    included, untouched. *)
Theorem one_response_line request w :
  match addressed request with
  | Some (method, id_node) =>
      stdout (snd (process_mcp_message request w))
      = stdout w
        ++ fst (handle_mcp_request method (r_json_get request "params")
                  (request_id id_node) w)
        ++ LF
  | None => process_mcp_message request w = (tt, w)
  end.
Proof.
  destruct (addressed request) as [[method id_node]|] eqn:A.
  - apply process_addressed. exact A.
  - apply process_unaddressed. exact A.
Qed.

(** Every response of the dispatcher is one of the two envelopes, built
    with the id of the request. *)
Lemma response_envelope method params id w :
  (exists result,
     fst (handle_mcp_request method params id w)
     = create_success_response (Some result) id)
  \/ (exists message,
        fst (handle_mcp_request method params id w)
        = create_error_response (-32601) message id None).
Proof.
  assert (S : forall result (w' : World),
             (exists r, fst (create_success_response (Some result) id, w')
                        = create_success_response (Some r) id)
             \/ (exists m, fst (create_success_response (Some result) id, w')
                           = create_error_response (-32601) m id None))
    by (intros result w'; left; exists result; reflexivity).
  assert (E : forall message (w' : World),
             (exists r, fst (create_error_response (-32601) message id None,
                             w')
                        = create_success_response (Some r) id)
             \/ (exists m, fst (create_error_response (-32601) message id
                                  None, w')
                           = create_error_response (-32601) m id None))
    by (intros message w'; right; exists message; reflexivity).
  unfold handle_mcp_request, bind, gets, ret.
  destruct (assert_capability_for_method (server_state w) method);
    [apply E|].
  destruct (assert_request_handler_capability (server_state w) method);
    [apply E|].
  repeat match goal with
         | |- context [if ?c then _ else _] =>
             destruct c; try apply E; try apply S
         end.
  all: match goal with
       | |- context [let (_, _) := ?c in _] => destruct c; apply S
       end.
Qed.

(** X6.  Only [initialize], [ping], [tools/list], [tool/list],
    [tools/call] and [tool/call] are ever served: any other method gets an
    error envelope of code -32601 with the request's id, and leaves the
    state untouched. *)
Theorem other_methods_are_refused method params id w :
  method <> "initialize" -> method <> "ping" ->
  method <> "tools/list" -> method <> "tool/list" ->
  method <> "tools/call" -> method <> "tool/call" ->
  exists message,
    handle_mcp_request method params id w
    = (create_error_response (-32601) message id None, w).
Proof.
  intros N1 N2 N3 N4 N5 N6.
  apply String.eqb_neq in N1, N2, N3, N4, N5, N6.
  assert (E : forall message,
             exists m, (create_error_response (-32601) message id None, w)
                       = (create_error_response (-32601) m id None, w))
    by (intros message; exists message; reflexivity).
  unfold handle_mcp_request, bind, gets, ret.
  destruct (assert_capability_for_method (server_state w) method);
    [apply E|].
  destruct (assert_request_handler_capability (server_state w) method);
    [apply E|].
  rewrite N1, N2, N3, N4, N5, N6. cbn [orb].
  repeat match goal with
         | |- context [if ?c then _ else _] => destruct c; try apply E
         end.
Qed.

End Responses.

Section Echo.
Context `{Radare2}.

Lemma plain_string_of_uint d : plain (NilEmpty.string_of_uint d) = true.
Proof. induction d; simpl; auto. Qed.

Lemma plain_decimal z : plain (decimal z) = true.
Proof.
  unfold decimal, NilZero.string_of_int, NilZero.string_of_uint.
  destruct (Z.to_int z) as [d | d].
  - destruct d; try reflexivity; apply (plain_string_of_uint (_ d)).
  - change (plain_char "-"%char
            && plain (match d with
                      | Decimal.Nil => "0"
                      | _ => NilEmpty.string_of_uint d
                      end) = true).
    destruct d; try reflexivity; apply (plain_string_of_uint (_ d)).
Qed.

(** The [id] member of a response, for the [id] node of the request. *)
Definition id_member (id_node : RJson) : string :=
  match id_node with
  | R_JSON_STRING str_value =>
      js ",'id':'" ++ r_str_escape_utf8_for_json str_value ++ dquote
  | R_JSON_INTEGER u_value =>
      js ",'id':'" ++ decimal (to_int64 u_value) ++ dquote
  | _ => EmptyString
  end.

Lemma id_field_request_id id_node :
  id_field (request_id id_node) = id_member id_node.
Proof.
  destruct id_node; try reflexivity. cbn [request_id id_field id_member].
  rewrite (escape_plain _ (plain_decimal _)). reflexivity.
Qed.

(** X5.  The line written for a request starts with the [jsonrpc] member
    and then echoes the id: a string id as a string, an integer id as the
    string of its decimal digits, read as a signed 64-bit number, and no
    [id] member for an id of another type.  What follows is a [result]
    member or an [error] member of code -32601, and the newline. *)
Theorem id_is_echoed request method id_node w :
  addressed request = Some (method, id_node) ->
  exists body,
    stdout (snd (process_mcp_message request w))
    = stdout w ++ js "{'jsonrpc':'2.0'" ++ id_member id_node ++ body ++ LF
    /\ ((exists result, body = js ",'result':" ++ result ++ "}")
        \/ (exists message,
              body = js ",'error':{'code':-32601,'message':'"
                     ++ r_str_escape_utf8_for_json message ++ js "'}}")).
Proof.
  intros A. rewrite (process_addressed _ _ _ w A).
  destruct (response_envelope method (r_json_get request "params")
              (request_id id_node) w) as [[result ->] | [message ->]].
  - rewrite create_success_response_text, id_field_request_id.
    exists (js ",'result':" ++ result ++ "}").
    split; [|left; exists result; reflexivity].
    rewrite !append_assoc. reflexivity.
  - rewrite create_error_response_text, id_field_request_id.
    exists (js ",'error':{'code':-32601,'message':'"
            ++ r_str_escape_utf8_for_json message ++ js "'}}").
    split; [|right; exists message; reflexivity].
    rewrite !append_assoc. reflexivity.
Qed.

(** X20.  An error envelope with a [uri] carries it in a [data] object
    after the message: the members are [jsonrpc], the id when there is
    one, and [error] with [code], [message] and [data]. *)
Theorem create_error_response_with_uri code message id uri :
  create_error_response code message id (Some uri)
  = js "{'jsonrpc':'2.0'" ++ id_field id ++ js ",'error':{'code':"
    ++ decimal code ++ js ",'message':'"
    ++ r_str_escape_utf8_for_json message ++ js "','data':{'uri':'"
    ++ r_str_escape_utf8_for_json uri ++ js "'}}}".
Proof. destruct id; pj_eval; reflexivity. Qed.

End Echo.

Section Capabilities.
Context `{Radare2}.

Lemma prefix_app p : forall s,
  prefix p s = true -> exists rest, s = p ++ rest.
Proof.
  induction p as [|a p IH]; intros s P.
  - exists s. reflexivity.
  - destruct s as [|b s]; cbn [prefix] in P; [discriminate|].
    destruct (ascii_dec a b) as [E | _]; [subst b | discriminate].
    destruct (IH s P) as [rest ->]. exists rest. reflexivity.
Qed.

(** X7.  While no client capabilities are recorded (the pointer is
    [NULL], as it is until an [initialize] brings a [capabilities] member),
    [sampling/createMessage] and [roots/list] are refused for the client's
    sake, with code -32601 and the texts "Client does not support sampling"
    and "Client does not support listing roots"; the state is untouched. *)
Theorem client_methods_without_capabilities params id w :
  client_capabilities (server_state w) = None ->
  handle_mcp_request "sampling/createMessage" params id w
  = (create_error_response (-32601) "Client does not support sampling"
       id None,
     w)
  /\ handle_mcp_request "roots/list" params id w
     = (create_error_response (-32601)
          "Client does not support listing roots" id None,
        w).
Proof.
  intros C. unfold handle_mcp_request, bind, gets, ret.
  unfold assert_capability_for_method, check_client_capability.
  rewrite C. cbn [String.eqb Ascii.eqb Bool.eqb]. split; reflexivity.
Qed.

(** X8.  Every method whose name starts with [prompts/] is refused with
    code -32601 and the text "Server does not support prompts"; the state
    is untouched. *)
Theorem prompts_are_never_served method params id w :
  starts_with "prompts/" method = true ->
  handle_mcp_request method params id w
  = (create_error_response (-32601) "Server does not support prompts"
       id None,
     w).
Proof.
  intros P. destruct (prefix_app _ _ P) as [rest ->].
  unfold handle_mcp_request, bind, gets, ret.
  unfold assert_capability_for_method, assert_request_handler_capability.
  rewrite P. reflexivity.
Qed.

End Capabilities.

Section Initialize.
Context `{Radare2}.

(** The result of [initialize] for the server's built-in description. *)
Definition INITIALIZE_RESULT : string :=
  js "{'protocolVersion':'2024-11-05','serverInfo':{'name':'Radare2 MCP Connector','version':'1.0.0'},'capabilities':{'tools':{}},'instructions':'Use this server to analyze binaries with radare2'}".

Lemma handle_initialize_result params w :
  info (server_state w) = info initial_server_state ->
  instructions (server_state w) = instructions initial_server_state ->
  client_capabilities (server_state w) = None ->
  client_info (server_state w) = None ->
  handle_initialize params w
  = (INITIALIZE_RESULT,
     set_server_state
       (set_initialized true
          (set_client (r_json_get params "capabilities")
             (r_json_get params "clientInfo") (server_state w))) w).
Proof.
  destruct w as [core opened current [inf caps instr init ccaps cinfo] out].
  cbn [server_state info instructions client_capabilities client_info].
  intros -> -> -> ->.
  unfold handle_initialize, r_json_free_kept, bind, gets, modify, ret,
    get_capabilities.
  cbn.
  repeat match goal with
         | |- context [r_str_escape_utf8_for_json ?text] =>
             rewrite (escape_plain text) by reflexivity
         end.
  rewrite ?append_assoc. reflexivity.
Qed.

(** X10.  An [initialize] handled while both client pointers are [NULL]
    (the first one of a run, or one after initializes that brought neither
    [capabilities] nor [clientInfo]) releases nothing and answers with the
    protocol version, the server's name and version, a capabilities object
    that advertises [tools] only, and the instructions, whatever the
    parameters.  It points the client pointers to the [capabilities] and
    [clientInfo] members of the parameters, sets [initialized], and
    changes nothing else. *)
Theorem initialize_result params id w :
  info (server_state w) = info initial_server_state ->
  instructions (server_state w) = instructions initial_server_state ->
  client_capabilities (server_state w) = None ->
  client_info (server_state w) = None ->
  handle_mcp_request "initialize" params id w
  = (create_success_response (Some INITIALIZE_RESULT) id,
     set_server_state
       (set_initialized true
          (set_client (r_json_get params "capabilities")
             (r_json_get params "clientInfo") (server_state w))) w).
Proof.
  intros I J C D. unfold handle_mcp_request, bind, gets, ret.
  change (assert_capability_for_method (server_state w) "initialize")
    with (@None string).
  change (assert_request_handler_capability (server_state w) "initialize")
    with (@None string).
  cbn [String.eqb Ascii.eqb Bool.eqb].
  rewrite (handle_initialize_result params w I J C D). reflexivity.
Qed.

Lemma dispatch_initialize params id w :
  snd (handle_mcp_request "initialize" params id w)
  = snd (handle_initialize params w).
Proof.
  unfold handle_mcp_request, bind, gets, ret.
  change (assert_capability_for_method (server_state w) "initialize")
    with (@None string).
  change (assert_request_handler_capability (server_state w) "initialize")
    with (@None string).
  cbn [String.eqb Ascii.eqb Bool.eqb].
  destruct (handle_initialize params w); reflexivity.
Qed.

Lemma handle_initialize_state params w :
  client_capabilities (server_state (snd (handle_initialize params w)))
  = r_json_get params "capabilities"
  /\ client_info (server_state (snd (handle_initialize params w)))
     = r_json_get params "clientInfo".
Proof.
  unfold handle_initialize, r_json_free_kept, bind, gets.
  destruct (client_capabilities (server_state w)),
    (client_info (server_state w)); split; reflexivity.
Qed.

(** X26.  An [initialize] that finds a client pointer kept from an earlier
    request hands it to [r_json_free], although the tree it points into
    was released when that request had been answered: the program
    releases the memory a second time.  So it is with every [initialize]
    that follows one whose parameters had a [capabilities] or a
    [clientInfo] member. *)
Theorem initialize_again_releases_twice params id params' id' w :
  (client_capabilities (server_state w) <> None
   \/ client_info (server_state w) <> None ->
   undefined (snd (handle_mcp_request "initialize" params id w)) = true)
  /\ (r_json_get params "capabilities" <> None
      \/ r_json_get params "clientInfo" <> None ->
      undefined
        (snd (handle_mcp_request "initialize" params' id'
                (snd (handle_mcp_request "initialize" params id w))))
      = true).
Proof.
  assert (A : forall p w0,
             client_capabilities (server_state w0) <> None
             \/ client_info (server_state w0) <> None ->
             undefined (snd (handle_initialize p w0)) = true).
  { intros p w0 K.
    unfold handle_initialize, r_json_free_kept, bind, gets.
    destruct (client_capabilities (server_state w0)),
      (client_info (server_state w0)); try reflexivity.
    destruct K as [K | K]; exfalso; apply K; reflexivity. }
  split; intros K; rewrite dispatch_initialize; apply A; [exact K|].
  rewrite dispatch_initialize.
  destruct (handle_initialize_state params w) as [-> ->]. exact K.
Qed.

End Initialize.

Section FileState.
Context `{Radare2}.

(** The file tracking is consistent when an open file has a core behind
    it and, with no file open, no file name is kept. *)
Definition consistent (w : World) : Prop :=
  (file_opened w = true -> r_core w <> None)
  /\ (file_opened w = false -> current_file w = EmptyString).

Ltac cases :=
  repeat (cbn in *;
          match goal with
          | |- context [match r_core_cmd_str_result ?h ?c with _ => _ end] =>
              destruct (r_core_cmd_str_result h c) as [[|? ?]|]
          | |- context [if r_core_file_open_ok ?h ?p then _ else _] =>
              destruct (r_core_file_open_ok h p)
          | |- context [if r_core_new_ok then _ else _] =>
              destruct r_core_new_ok
          end).

Lemma r2_open_file_state filepath w :
  consistent w ->
  consistent (snd (r2_open_file filepath w))
  /\ file_opened (snd (r2_open_file filepath w))
     = fst (r2_open_file filepath w)
  /\ (fst (r2_open_file filepath w) = true ->
      current_file (snd (r2_open_file filepath w)) = fit 1024 filepath).
Proof.
  destruct w as [[history|] [|] current st out];
    unfold consistent; cbn [file_opened r_core current_file];
    intros [C1 C2];
    try (exfalso; apply (C1 eq_refl); reflexivity);
    try (rewrite (C2 eq_refl));
    unfold r2_open_file, init_r2, r_core_cmd_str, r_core_file_open,
      r_core_cmd0, r_core_bin_load, core_call, bind, gets, modify, ret;
    cases;
    repeat split; try reflexivity; try discriminate; intros; discriminate.
Qed.

(** X11.  On a consistent state [r2_open_file] returns [true] exactly
    when it leaves a file open; the name it then keeps is the path cut to
    1023 characters, and after a failure no file is open and no name is
    kept.  The state stays consistent. *)
Theorem open_file_outcome filepath w :
  consistent w ->
  file_opened (snd (r2_open_file filepath w))
  = fst (r2_open_file filepath w)
  /\ current_file (snd (r2_open_file filepath w))
     = (if fst (r2_open_file filepath w) then fit 1024 filepath
        else EmptyString)
  /\ consistent (snd (r2_open_file filepath w)).
Proof.
  intros C. destruct (r2_open_file_state filepath w C) as ([C1 C2] & F & N).
  split; [exact F|]. split; [|split; assumption].
  destruct (fst (r2_open_file filepath w)); [apply N; reflexivity|].
  apply C2. exact F.
Qed.

Lemma r2_cmd_consistent cmd w :
  consistent w -> consistent (snd (r2_cmd cmd w)).
Proof.
  destruct w as [[history|] [|] current st out]; intros C;
    unfold r2_cmd, r_core_cmd_str, bind, gets, ret; cbn; try exact C.
  destruct C as [_ C2]. split; [discriminate | exact C2].
Qed.

Lemma r2_analyze_consistent level w :
  consistent w -> consistent (snd (r2_analyze level w)).
Proof.
  destruct w as [[history|] [|] current st out]; intros C;
    unfold r2_analyze, r_core_cmd0, core_call, bind, gets, modify, ret;
    cbn; try exact C.
  destruct C as [_ C2]. split; [discriminate | exact C2].
Qed.

Lemma close_file_consistent w :
  consistent w ->
  consistent
    (snd ((have_core <- gets r_core ;;
           match have_core with
           | Some _ =>
               r_core_cmd0 "o-*" ;;
               modify (set_file_opened false) ;;
               modify (set_current_file EmptyString)
           | None => ret tt
           end ;;
           ret (create_tool_text_response
                  (Some "File closed successfully."))) w)).
Proof.
  destruct w as [[history|] [|] current st out]; intros C;
    unfold r_core_cmd0, core_call, bind, gets, modify, ret; cbn;
    try exact C; split; intros; try reflexivity; discriminate.
Qed.

Lemma handle_call_tool_consistent params w :
  consistent w -> consistent (snd (handle_call_tool params w)).
Proof.
  intros C. unfold handle_call_tool.
  destruct (r_json_get_str params "name") as [tool_name|]; [|exact C].
  cbv zeta.
  destruct (tool_name =? "openFile").
  { destruct (r_json_get_str _ "filePath") as [filepath|]; [|exact C].
    unfold bind at 1.
    pose proof (r2_open_file_state filepath w C) as [C' _].
    destruct (r2_open_file filepath w); exact C'. }
  destruct (tool_name =? "closeFile").
  { unfold bind at 1, gets at 1.
    destruct (file_opened w); cbn [negb]; [|exact C].
    apply close_file_consistent. exact C. }
  unfold bind at 1, gets at 1.
  destruct (negb (file_opened w)
            && ((tool_name =? "runCommand") || (tool_name =? "analyze")
                || (tool_name =? "disassemble"))); [exact C|].
  destruct (tool_name =? "runCommand").
  { destruct (r_json_get_str _ "command") as [command|]; [|exact C].
    unfold bind at 1.
    pose proof (r2_cmd_consistent command w C) as C'.
    destruct (r2_cmd command w); exact C'. }
  destruct (tool_name =? "analyze").
  { unfold bind at 1.
    match goal with
    | |- context [r2_analyze ?level w] =>
        pose proof (r2_analyze_consistent level w C) as C';
        destruct (r2_analyze level w) as [b w1]
    end.
    unfold bind at 1.
    pose proof (r2_cmd_consistent "afl" w1 C') as C''.
    destruct (r2_cmd "afl" w1); exact C''. }
  destruct (tool_name =? "disassemble"); [|exact C].
  destruct (r_json_get_str _ "address") as [address|]; [|exact C].
  cbv zeta. unfold bind at 1.
  match goal with
  | |- context [r2_cmd ?cmd w] =>
      pose proof (r2_cmd_consistent cmd w C) as C';
      destruct (r2_cmd cmd w)
  end.
  exact C'.
Qed.

Lemma handle_initialize_consistent params w :
  consistent w -> consistent (snd (handle_initialize params w)).
Proof.
  unfold handle_initialize, r_json_free_kept, bind, gets.
  destruct (client_capabilities (server_state w)),
    (client_info (server_state w)); intros C; exact C.
Qed.

Lemma process_keeps_consistent request w :
  consistent w -> consistent (snd (process_mcp_message request w)).
Proof.
  intros C. unfold process_mcp_message.
  destruct request as [request|]; [|exact C].
  destruct (r_json_get_str (Some request) "method") as [method|];
    [|exact C].
  destruct (r_json_get (Some request) "id") as [id_node|]; [|exact C].
  unfold bind at 1.
  match goal with
  | |- context [handle_mcp_request method ?p ?i w] =>
      assert (C' : consistent (snd (handle_mcp_request method p i w)));
      [|destruct (handle_mcp_request method p i w); exact C']
  end.
  unfold handle_mcp_request, bind, gets, ret.
  destruct (assert_capability_for_method (server_state w) method);
    [exact C|].
  destruct (assert_request_handler_capability (server_state w) method);
    [exact C|].
  repeat match goal with
         | |- context [if ?c then _ else _] => destruct c; try exact C
         end.
  - pose proof (handle_initialize_consistent
                  (r_json_get (Some request) "params") w C) as C'.
    destruct (handle_initialize _ w); exact C'.
  - pose proof (handle_call_tool_consistent
                  (r_json_get (Some request) "params") w C) as C'.
    destruct (handle_call_tool _ w); exact C'.
Qed.

(** X12.  The file tracking starts consistent, and handling a message
    keeps it so: never is a file marked open without a core, nor a file
    name kept while no file is open. *)
Theorem file_tracking_stays_consistent :
  consistent initial_world
  /\ forall request w,
       consistent w -> consistent (snd (process_mcp_message request w)).
Proof.
  split; [split; [discriminate | reflexivity]|].
  exact process_keeps_consistent.
Qed.

End FileState.

Section Tools.
Context `{Radare2}.

(** X13.  [closeFile] with a file open tells the core to close every file
    ([o-*]), clears the tracked state and reports "File closed
    successfully."; called again at once it reports "No file was open."
    and neither calls the core nor changes the state. *)
Theorem close_file_twice params history w :
  r_json_get_str params "name" = Some "closeFile" ->
  file_opened w = true ->
  r_core w = Some history ->
  handle_call_tool params w
  = (create_tool_text_response (Some "File closed successfully."),
     closed history w)
  /\ handle_call_tool params (closed history w)
     = (create_tool_text_response (Some "No file was open."),
        closed history w).
Proof.
  intros Hn F C.
  destruct w as [core opened current st out]; cbn in F, C; subst.
  unfold handle_call_tool. rewrite Hn. split; reflexivity.
Qed.

(** X14.  [runCommand] on an open file passes the command text to the
    core unchanged, in one call, and returns the core's text as the tool
    result. *)
Theorem run_command_forwards params command history w :
  r_json_get_str params "name" = Some "runCommand" ->
  r_json_get_str (r_json_get params "arguments") "command" = Some command ->
  file_opened w = true ->
  r_core w = Some history ->
  handle_call_tool params w
  = (create_tool_text_response (r_core_cmd_str_result history command),
     set_r_core (Some (history ++ [CmdStr command])%list) w).
Proof.
  intros Hn Hc F C.
  destruct w as [core opened current st out]; cbn in F, C; subst.
  unfold handle_call_tool. rewrite Hn. cbv zeta. rewrite Hc. reflexivity.
Qed.

(** The analysis level of a request: the string argument [level], or
    "aaa". *)
Definition level_of (params : option RJson) : string :=
  match r_json_get_str (r_json_get params "arguments") "level" with
  | Some level => level
  | None => "aaa"
  end.

(** X15.  [analyze] on an open file runs the level, cut to 31 characters,
    as a command, then asks for the function list ([afl]); its text names
    the level as it was given and carries the list.  Without a string
    [level] the level is "aaa". *)
Theorem analyze_runs_level_then_lists params history w :
  r_json_get_str params "name" = Some "analyze" ->
  file_opened w = true ->
  r_core w = Some history ->
  handle_call_tool params w
  = (create_tool_text_response
       (Some (format_string
                ("Analysis completed with level " ++ level_of params ++ "."
                 ++ LF ++ LF
                 ++ match r_core_cmd_str_result
                            (history ++ [Cmd0 (fit 32 (level_of params))])
                            "afl"
                    with
                    | Some listing => listing
                    | None => "(null)"
                    end))),
     set_r_core
       (Some ((history ++ [Cmd0 (fit 32 (level_of params))])
              ++ [CmdStr "afl"])%list) w).
Proof.
  intros Hn F C.
  destruct w as [core opened current st out]; cbn in F, C; subst.
  unfold handle_call_tool, level_of. rewrite Hn. cbv zeta.
  destruct (r_json_get_str (r_json_get params "arguments") "level");
    reflexivity.
Qed.

(** X16.  [tools/list] with a cursor that reads as a number [v] from 0 up
    (short of the last ten values of [int]) returns the catalog from its
    entry [v] on, in order, and never a [nextCursor]: the page size
    exceeds the catalog. *)
Theorem list_tools_from_cursor params cursor :
  r_json_get_str params "cursor" = Some cursor ->
  (0 <= atoi cursor <= 2 ^ 31 - 11)%Z ->
  handle_list_tools params
  = js "{'tools':["
    ++ String.concat ","
         (map tool_entry (skipn (Z.to_nat (atoi cursor)) tool_table))
    ++ "]}".
Proof.
  intros C R. unfold handle_list_tools. rewrite C.
  assert (V : (atoi cursor = 0 \/ atoi cursor = 1 \/ atoi cursor = 2
               \/ atoi cursor = 3 \/ atoi cursor = 4
               \/ 5 <= atoi cursor)%Z) by lia.
  destruct V as [V | [V | [V | [V | [V | V]]]]];
    try (rewrite V; vm_compute; reflexivity).
  change (Z.of_nat (List.length tool_table)) with 5%Z.
  destruct (Z.ltb_spec (atoi cursor) 0) as [L | _]; [lia|].
  rewrite to_int32_in_range by lia.
  destruct (Z.gtb_spec (atoi cursor + 10) 5) as [_ | G]; [|lia].
  replace (Z.to_nat (5 - atoi cursor)) with 0%nat by lia.
  rewrite skipn_all2 by (change (List.length tool_table) with 5%nat; lia).
  reflexivity.
Qed.

End Tools.

Section MoreTools.
Context `{Radare2}.

(** X21.  A cursor that is not a JSON string (a number, say) is not read
    at all: [tools/list] answers as without a cursor. *)
Theorem non_string_cursor_is_ignored params value :
  r_json_get params "cursor" = Some value ->
  (forall text, value <> R_JSON_STRING text) ->
  handle_list_tools params = handle_list_tools None.
Proof.
  intros C N. unfold handle_list_tools.
  assert (E : r_json_get_str params "cursor" = None).
  { unfold r_json_get_str. destruct params as [json|]; [|reflexivity].
    rewrite C. destruct value; try reflexivity.
    exfalso. eapply N. reflexivity. }
  rewrite E. reflexivity.
Qed.

(** Whether [r_core_cmd_str] returned some text. *)
Definition printed (result : option string) : bool :=
  match result with
  | Some text => (0 <? String.length text)%nat
  | None => false
  end.

(** X22.  With a core and no file open, [r2_open_file] first sets two
    options and runs ["o <path>"], the command cut to 1023 characters; it
    succeeds when that command prints something, and otherwise exactly
    when [r_core_file_open], called with the whole path, returns a
    descriptor.  [r_core_file_open] is not called when the command
    printed. *)
Theorem open_file_attempts filepath history w :
  r_core w = Some history ->
  file_opened w = false ->
  let configured :=
    (history ++ [Cmd0 "e bin.relocs.apply=true"; Cmd0 "e bin.cache=true"])%list
  in
  let cmd := fit 1024 ("o " ++ filepath) in
  let commanded := (configured ++ [CmdStr cmd])%list in
  fst (r2_open_file filepath w)
  = printed (r_core_cmd_str_result configured cmd)
    || r_core_file_open_ok commanded filepath
  /\ r_core (snd (r2_open_file filepath w))
     = Some (if printed (r_core_cmd_str_result configured cmd)
             then commanded ++ [Cmd0 "ob"]
             else if r_core_file_open_ok commanded filepath
                  then commanded
                       ++ [FileOpen filepath; BinLoad filepath; Cmd0 "ob"]
                  else commanded ++ [FileOpen filepath])%list.
Proof.
  intros C F.
  destruct w as [core opened current st out]; cbn in C, F; subst.
  unfold r2_open_file, r_core_cmd_str, r_core_file_open, r_core_cmd0,
    r_core_bin_load, core_call, bind, gets, modify, ret, printed.
  cbn.
  repeat rewrite <- app_assoc. cbn [app].
  destruct (r_core_cmd_str_result _ _) as [[|c text]|]; cbn;
    try (destruct (r_core_file_open_ok _ _); cbn);
    repeat rewrite <- app_assoc; split; reflexivity.
Qed.

(** X23.  A tool call never touches the server state (the client's
    capabilities and info, the [initialized] flag) nor the output. *)
Theorem tool_calls_keep_the_session params w :
  server_state (snd (handle_call_tool params w)) = server_state w
  /\ stdout (snd (handle_call_tool params w)) = stdout w.
Proof.
  split.
  - apply (keeps_handle_call_tool server_state);
      try unfold core_blind; intros; reflexivity.
  - apply (keeps_handle_call_tool stdout);
      try unfold core_blind; intros; reflexivity.
Qed.

(** X24.  Only [tools/call] and [tool/call] reach the core: any other
    method leaves the core, with the calls made to it, and the file
    tracking as they were. *)
Theorem only_tool_calls_reach_the_core method params id w :
  method <> "tools/call" -> method <> "tool/call" ->
  r_core (snd (handle_mcp_request method params id w)) = r_core w
  /\ file_opened (snd (handle_mcp_request method params id w))
     = file_opened w
  /\ current_file (snd (handle_mcp_request method params id w))
     = current_file w.
Proof.
  intros N1 N2. apply String.eqb_neq in N1, N2.
  unfold handle_mcp_request, bind, gets, ret.
  destruct (assert_capability_for_method (server_state w) method);
    [repeat split|].
  destruct (assert_request_handler_capability (server_state w) method);
    [repeat split|].
  rewrite N1, N2. cbn [orb].
  repeat match goal with
         | |- context [if ?c then _ else _] => destruct c
         end;
    try (unfold handle_initialize, r_json_free_kept, bind, gets;
         destruct (client_capabilities (server_state w)),
           (client_info (server_state w)));
    repeat split.
Qed.

End MoreTools.

(** ** The laws at concrete requests, on the sample radare2 *)

#[local] Existing Instance Sample.radare2.

(** [{"jsonrpc":"2.0","id":42,"method":"ping"}] *)
Definition ping_42 : option RJson :=
  Some (R_JSON_OBJECT [ ("jsonrpc", R_JSON_STRING "2.0");
                        ("id", R_JSON_INTEGER 42);
                        ("method", R_JSON_STRING "ping") ]).

Lemma id_is_echoed_witness :
  exists body,
    stdout (snd (process_mcp_message (H := Sample.radare2) ping_42
                   initial_world))
    = stdout initial_world ++ js "{'jsonrpc':'2.0'"
      ++ js ",'id':'42'" ++ body ++ LF.
Proof.
  destruct (@id_is_echoed Sample.radare2 ping_42 "ping" (R_JSON_INTEGER 42)
              initial_world eq_refl) as (body & E & _).
  exists body. exact E.
Defined.

Lemma other_methods_are_refused_witness :
  exists message,
    handle_mcp_request (H := Sample.radare2) "resources/list" None
      (Some "1") initial_world
    = (create_error_response (-32601) message (Some "1") None,
       initial_world).
Proof.
  apply (@other_methods_are_refused Sample.radare2 "resources/list" None
           (Some "1") initial_world);
    intros E; discriminate E.
Defined.

Lemma prompts_are_never_served_witness :
  handle_mcp_request (H := Sample.radare2) "prompts/list" None (Some "1")
    initial_world
  = (create_error_response (-32601) "Server does not support prompts"
       (Some "1") None,
     initial_world).
Proof.
  exact (@prompts_are_never_served Sample.radare2 "prompts/list" None
           (Some "1") initial_world eq_refl).
Defined.

Lemma initialize_result_witness :
  fst (handle_mcp_request (H := Sample.radare2) "initialize"
         (Some (R_JSON_OBJECT [("capabilities", R_JSON_OBJECT [])]))
         (Some "1") initial_world)
  = create_success_response (Some INITIALIZE_RESULT) (Some "1").
Proof.
  exact (f_equal fst
           (@initialize_result Sample.radare2
              (Some (R_JSON_OBJECT [("capabilities", R_JSON_OBJECT [])]))
              (Some "1") initial_world eq_refl eq_refl eq_refl eq_refl)).
Defined.

Lemma initialize_again_releases_twice_witness :
  undefined
    (snd (handle_mcp_request (H := Sample.radare2) "initialize"
            (Some (R_JSON_OBJECT [("capabilities", R_JSON_OBJECT [])]))
            (Some "2")
            (snd (handle_mcp_request (H := Sample.radare2) "initialize"
                    (Some (R_JSON_OBJECT
                             [("capabilities", R_JSON_OBJECT [])]))
                    (Some "1") initial_world))))
  = true.
Proof.
  refine (proj2 (@initialize_again_releases_twice Sample.radare2
                   (Some (R_JSON_OBJECT [("capabilities", R_JSON_OBJECT [])]))
                   (Some "1")
                   (Some (R_JSON_OBJECT [("capabilities", R_JSON_OBJECT [])]))
                   (Some "2") initial_world) _).
  left. intros E. discriminate E.
Defined.

Lemma client_methods_without_capabilities_witness :
  handle_mcp_request (H := Sample.radare2) "sampling/createMessage" None
    (Some "1") initial_world
  = (create_error_response (-32601) "Client does not support sampling"
       (Some "1") None,
     initial_world).
Proof.
  exact (proj1 (@client_methods_without_capabilities Sample.radare2 None
                  (Some "1") initial_world eq_refl)).
Defined.

Lemma initial_world_consistent : consistent initial_world.
Proof. split; [discriminate | reflexivity]. Qed.

Lemma open_file_outcome_witness :
  file_opened (snd (r2_open_file (H := Sample.radare2) "/bin/ls"
                      initial_world))
  = fst (r2_open_file (H := Sample.radare2) "/bin/ls" initial_world)
  /\ fst (r2_open_file (H := Sample.radare2) "/bin/ls" initial_world)
     = true.
Proof.
  split; [|reflexivity].
  exact (proj1 (@open_file_outcome Sample.radare2 "/bin/ls" initial_world
                  initial_world_consistent)).
Defined.

Lemma file_tracking_stays_consistent_witness :
  consistent
    (snd (process_mcp_message (H := Sample.radare2) ping_42 initial_world)).
Proof.
  destruct (@file_tracking_stays_consistent Sample.radare2) as [I S].
  exact (S ping_42 initial_world I).
Defined.

(** The calls made to the core in [world_with_file]. *)
Definition calls_with_file : list R2Call :=
  [ ConfigSetI "scr.color" 0; Cmd0 "e bin.relocs.apply=true";
    Cmd0 "e bin.cache=true"; CmdStr "o /bin/ls"; FileOpen "/bin/ls";
    BinLoad "/bin/ls"; Cmd0 "ob" ].

Lemma close_file_twice_witness :
  fst (handle_call_tool (H := Sample.radare2) (tool_params "closeFile" [])
         world_with_file)
  = create_tool_text_response (H := Sample.radare2)
      (Some "File closed successfully.")
  /\ fst (handle_call_tool (H := Sample.radare2)
            (tool_params "closeFile" [])
            (closed calls_with_file world_with_file))
     = create_tool_text_response (H := Sample.radare2)
         (Some "No file was open.").
Proof.
  destruct (@close_file_twice Sample.radare2 (tool_params "closeFile" [])
              calls_with_file world_with_file eq_refl eq_refl eq_refl)
    as [E1 E2].
  rewrite E1, E2. split; reflexivity.
Defined.

Lemma run_command_forwards_witness :
  handle_call_tool (H := Sample.radare2)
    (tool_params "runCommand" [("command", R_JSON_STRING "iI")])
    world_with_file
  = (create_tool_text_response (H := Sample.radare2) (Some "[iI]"),
     set_r_core (Some (calls_with_file ++ [CmdStr "iI"])%list)
       world_with_file).
Proof.
  exact (@run_command_forwards Sample.radare2
           (tool_params "runCommand" [("command", R_JSON_STRING "iI")])
           "iI" calls_with_file world_with_file
           eq_refl eq_refl eq_refl eq_refl).
Defined.

Lemma analyze_runs_level_then_lists_witness :
  r_core (snd (handle_call_tool (H := Sample.radare2)
                 (tool_params "analyze" []) world_with_file))
  = Some (calls_with_file ++ [Cmd0 "aaa"; CmdStr "afl"])%list.
Proof.
  rewrite (@analyze_runs_level_then_lists Sample.radare2
             (tool_params "analyze" []) calls_with_file world_with_file
             eq_refl eq_refl eq_refl).
  reflexivity.
Defined.

Lemma list_tools_from_cursor_witness :
  handle_list_tools (cursor_params "3")
  = js "{'tools':["
    ++ String.concat "," (map tool_entry (skipn 3 tool_table)) ++ "]}".
Proof.
  refine (list_tools_from_cursor (cursor_params "3") "3" eq_refl _).
  split; intros E; discriminate E.
Defined.

Lemma non_string_cursor_is_ignored_witness :
  handle_list_tools (Some (R_JSON_OBJECT [("cursor", R_JSON_INTEGER 3)]))
  = handle_list_tools None.
Proof.
  refine (non_string_cursor_is_ignored
            (Some (R_JSON_OBJECT [("cursor", R_JSON_INTEGER 3)]))
            (R_JSON_INTEGER 3) eq_refl _).
  intros text E; discriminate E.
Defined.

(** The state in which [main] enters the loop, a core and no file. *)
Definition world_with_core : World :=
  set_r_core (Some [ConfigSetI "scr.color" 0%Z]) initial_world.

Lemma open_file_attempts_witness :
  fst (r2_open_file (H := Sample.radare2) "/bin/ls" world_with_core) = true
  /\ fst (r2_open_file (H := Sample.radare2) "/etc/none" world_with_core)
     = false.
Proof.
  split.
  - rewrite (proj1 (@open_file_attempts Sample.radare2 "/bin/ls"
                      [ConfigSetI "scr.color" 0%Z] world_with_core
                      eq_refl eq_refl)).
    reflexivity.
  - rewrite (proj1 (@open_file_attempts Sample.radare2 "/etc/none"
                      [ConfigSetI "scr.color" 0%Z] world_with_core
                      eq_refl eq_refl)).
    reflexivity.
Defined.

Lemma only_tool_calls_reach_the_core_witness :
  r_core (snd (handle_mcp_request (H := Sample.radare2) "initialize" None
                 (Some "1") world_with_file))
  = r_core world_with_file.
Proof.
  refine (proj1 (@only_tool_calls_reach_the_core Sample.radare2 "initialize"
                   None (Some "1") world_with_file _ _));
    intros E; discriminate E.
Defined.

End McpLaws.

(** ** The loop that serves the standard input, and [main] *)

Module ServerLoop.
Import Framer Libc Json Mcp.
Open Scope string_scope.

Section Loop.
Context `{Radare2}.

(** radare2's parser, a parameter: [r_json_parse msg] is [None] when the
    line is not JSON. *)
Variable r_json_parse : list byte -> option RJson.

(** The body of [if (bytes_read > 0)] after the append:
    [while ((msg = read_buffer_get_message(buffer)) != NULL)
       process_mcp_message(msg);] *)
Equations? message_loop (buffer : ReadBuffer) (w : World)
  : ReadBuffer * World by wf (length (data buffer)) lt :=
  message_loop buffer w with inspect (read_buffer_get_message buffer) => {
    | exist _ None _ => (buffer, w)
    | exist _ (Some (msg, buffer')) e =>
        message_loop buffer'
          (snd (process_mcp_message (r_json_parse msg) w)) }.
Proof. eapply get_message_shrinks; eauto. Qed.

(** [direct_mode_loop] over [reads], the chunks that the successive calls
    of [read] return before the loop ends; the waits in [select], the
    probes of the output and the signals are left out.  The result is
    [None] where an append would overrun the buffer. *)
Fixpoint direct_mode_loop (buffer : ReadBuffer) (reads : list (list byte))
  (w : World) : option (ReadBuffer * World) :=
  match reads with
  | [] => Some (buffer, w)
  | chunk :: rest =>
      match read_buffer_append buffer chunk with
      | None => None
      | Some buffer1 =>
          let r := message_loop buffer1 w in
          direct_mode_loop (fst r) rest (snd r)
      end
  end.



(** The messages of a list handled one after the other. *)
Fixpoint run_messages (msgs : list (list byte)) (w : World) : World :=
  match msgs with
  | [] => w
  | msg :: rest =>
      run_messages rest (snd (process_mcp_message (r_json_parse msg) w))
  end.

End Loop.
End ServerLoop.

Module ServerLoopLaws.
Import Framer FramerFacts Libc Json Mcp McpFacts McpLaws ServerLoop.
Open Scope string_scope.

Section Laws.
Context `{Radare2}.
Variable r_json_parse : list byte -> option RJson.

Lemma run_messages_app msgs1 msgs2 w :
  run_messages r_json_parse (msgs1 ++ msgs2) w
  = run_messages r_json_parse msgs2 (run_messages r_json_parse msgs1 w).
Proof.
  revert w; induction msgs1 as [|msg msgs1 IH]; intros w; simpl;
    [reflexivity | apply IH].
Qed.

(** The loop hands over the lines of the buffer, in order. *)
Lemma message_loop_split_lines buffer w :
  message_loop r_json_parse buffer w
  = ({| data := snd (split_lines (data buffer));
        capacity := capacity buffer |},
     run_messages r_json_parse (fst (split_lines (data buffer))) w).
Proof.
  funelim (message_loop r_json_parse buffer w).
  - destruct (get_message_split _ _ _ e) as (Hd & Hn & Hc).
    rewrite H0, Hd, split_lines_first by exact Hn. simpl.
    rewrite Hc. reflexivity.
  - rewrite (split_lines_no_newline _ (get_message_none _ e)).
    destruct buffer; reflexivity.
Qed.

(** The loop is the framing of [feed] followed by the handling of its
    messages. *)
Lemma direct_mode_loop_feed reads : forall buffer w,
  direct_mode_loop r_json_parse buffer reads w
  = match feed buffer reads with
    | Some (msgs, buffer') =>
        Some (buffer', run_messages r_json_parse msgs w)
    | None => None
    end.
Proof.
  induction reads as [|chunk rest IH]; intros buffer w; simpl;
    [reflexivity|].
  destruct (read_buffer_append buffer chunk) as [buffer1|]; [|reflexivity].
  rewrite message_loop_split_lines, extract_messages_split_lines.
  cbn [fst snd]. rewrite IH.
  destruct (feed _ rest) as [[msgs buffer']|]; [|reflexivity].
  rewrite run_messages_app. reflexivity.
Qed.

End Laws.
Section Serving.
Context `{Radare2}.
Variable r_json_parse : list byte -> option RJson.


Lemma loop_on_fitting_reads reads w :
  Forall fits reads ->
  exists buffer,
    direct_mode_loop r_json_parse read_buffer_new reads w
    = Some (buffer,
            run_messages r_json_parse (fst (split_lines (concat reads))) w)
    /\ data buffer = snd (split_lines (concat reads)).
Proof.
  intros F. rewrite direct_mode_loop_feed.
  destruct (feed_split_lines reads read_buffer_new
              read_buffer_new_well_sized eq_refl F) as (buffer & -> & D).
  exists buffer. split; [reflexivity | exact D].
Qed.

(** X17.  What the loop does depends on the bytes it reads, not on how
    [read] cuts them: two sequences of reads of at most [BUFFER_SIZE]
    bytes each that carry the same bytes leave the same state, output
    included, and the same unfinished line in the buffer.  The state is
    that of handling the complete lines of the input one after the
    other. *)
Theorem serving_is_chunk_independent reads1 reads2 w :
  Forall fits reads1 -> Forall fits reads2 ->
  concat reads1 = concat reads2 ->
  exists buffer1 buffer2,
    direct_mode_loop r_json_parse read_buffer_new reads1 w
    = Some (buffer1,
            run_messages r_json_parse (fst (split_lines (concat reads1))) w)
    /\ direct_mode_loop r_json_parse read_buffer_new reads2 w
       = Some (buffer2,
               run_messages r_json_parse
                 (fst (split_lines (concat reads1))) w)
    /\ data buffer1 = data buffer2.
Proof.
  intros F1 F2 E.
  destruct (loop_on_fitting_reads reads1 w F1) as (b1 & R1 & D1).
  destruct (loop_on_fitting_reads reads2 w F2) as (b2 & R2 & D2).
  rewrite <- E in R2, D2. exists b1, b2.
  split; [exact R1|]. split; [exact R2 | congruence].
Qed.

(** A line gets an answer when it parses to a request with a string
    [method] and an [id] member. *)
Definition answered (msg : list byte) : bool :=
  match addressed (r_json_parse msg) with
  | Some _ => true
  | None => false
  end.

Lemma run_skips_unanswered msgs : forall w,
  run_messages r_json_parse msgs w
  = run_messages r_json_parse (filter answered msgs) w.
Proof.
  induction msgs as [|msg msgs IH]; intros w; simpl; [reflexivity|].
  unfold answered at 1.
  destruct (addressed (r_json_parse msg)) as [[method id_node]|] eqn:A;
    simpl.
  - apply IH.
  - rewrite (process_unaddressed _ w A). apply IH.
Qed.

(** X18.  Lines that get no answer (not JSON, no string [method], or no
    [id]) are as good as absent: the loop leaves the state, output
    included, that it leaves when only the answered lines are handled. *)
Theorem unanswered_lines_leave_no_trace reads w :
  Forall fits reads ->
  exists buffer,
    direct_mode_loop r_json_parse read_buffer_new reads w
    = Some (buffer,
            run_messages r_json_parse
              (filter answered (fst (split_lines (concat reads)))) w).
Proof.
  intros F. destruct (loop_on_fitting_reads reads w F) as (b & R & _).
  exists b. rewrite R, run_skips_unanswered. reflexivity.
Qed.


(** The state in which [main] enters the loop. *)
Definition started : World :=
  set_r_core (Some [ConfigSetI "scr.color" 0%Z]) initial_world.











End Serving.

(** ** The loop on a sample input *)

(** A parser that knows one line, [p], and reads it as a [ping] request
    with the id 42. *)
Definition sample_parse (msg : list byte) : option RJson :=
  match msg with
  | [x70] => ping_42
  | _ => None
  end.

(** The bytes [p\nq\n] read at once, and read as [p\nq] then [\n]. *)
Definition sample_reads1 : list (list byte) := [[x70; x0a; x71; x0a]].
Definition sample_reads2 : list (list byte) := [[x70; x0a; x71]; [x0a]].

Lemma sample_reads_fit :
  Forall fits sample_reads1 /\ Forall fits sample_reads2.
Proof.
  split; repeat constructor; apply N.leb_le; reflexivity.
Qed.

Lemma serving_is_chunk_independent_witness :
  exists buffer1 buffer2,
    direct_mode_loop (H := Sample.radare2) sample_parse read_buffer_new
      sample_reads1 started
    = Some (buffer1,
            run_messages (H := Sample.radare2) sample_parse
              [[x70]; [x71]] started)
    /\ direct_mode_loop (H := Sample.radare2) sample_parse read_buffer_new
         sample_reads2 started
       = Some (buffer2,
               run_messages (H := Sample.radare2) sample_parse
                 [[x70]; [x71]] started)
    /\ data buffer1 = data buffer2.
Proof.
  exact (@serving_is_chunk_independent Sample.radare2 sample_parse
           sample_reads1 sample_reads2 started
           (proj1 sample_reads_fit) (proj2 sample_reads_fit) eq_refl).
Defined.

Lemma unanswered_lines_leave_no_trace_witness :
  exists buffer,
    direct_mode_loop (H := Sample.radare2) sample_parse read_buffer_new
      sample_reads2 started
    = Some (buffer,
            run_messages (H := Sample.radare2) sample_parse [[x70]] started).
Proof.
  exact (@unanswered_lines_leave_no_trace Sample.radare2 sample_parse
           sample_reads2 started (proj2 sample_reads_fit)).
Defined.





End ServerLoopLaws.
